(** * CloudGraph canvas: store, placement rules and drag/drop controller

    A shallow embedding of
    - [frontend/src/app/store.ts]            (the zustand graph store),
    - [features/canvas/utils/validation.ts]  (the placement rules),
    - [features/canvas/Canvas.tsx]           (coordinate resolver, drag and
                                              drop handlers, cost debounce),
    followed by the properties of the containment engine.

    Conventions.
    - A JavaScript number is an integer [Z] (canvas pixels, z-indices, cost
      figures); the halves taken for a bounding-box centre are rationals [Q].
      The program computes in IEEE doubles, where a subtraction need not
      undo an addition: the statements on reparenting keep sums and
      differences in the order the code computes them, and an equation that
      only exact arithmetic gives is a hypothesis where it is needed.
    - [undefined] is [None]; an object used as a dictionary is a [gmap].
    - A thrown exception is the [Throw] completion; a handler that throws
      leaves the state as it was when the exception was raised.
    - The identity of the array held in [state.nodes] is a number; every
      array the store builds gets the next unused one. *)

From Stdlib Require Import PrimFloat.
From Stdlib Require Import ZArith QArith Lia.
From stdpp Require Import base option strings list gmap sorting.

(** ** Completions: a returned value or a thrown exception *)

Inductive Exception :=
  | TypeError    (* reading a property of undefined *)
  | RangeError.  (* maximum call stack size exceeded *)

Inductive Completion (A : Type) :=
  | Normal (a : A)
  | Throw (e : Exception).
Arguments Normal {A} a.
Arguments Throw {A} e.

Definition bindC {A B} (m : Completion A) (k : A -> Completion B) : Completion B :=
  match m with
  | Normal a => k a
  | Throw e => Throw e
  end.

Notation "'let*' x ':=' m 'in' k" := (bindC m (fun x => k))
  (at level 10, x name, m at level 100, k at level 200).

(** ** Data model (React Flow's [Node], as this program uses it) *)

Record XY := mkXY { pos_x : Z; pos_y : Z }.

(** Values stored in [node.data]. *)
Inductive AttrVal :=
  | VStr (s : string)
  | VNum (n : Z)
  | VBool (b : bool)
  | VList (l : list string).

Record Style := mkStyle { style_width : option Z; style_height : option Z }.

Inductive Extent := ExtentParent | ExtentBox (x0 y0 x1 y1 : Z).

Record Node := mkNode {
  id : string;
  type : option string;
  position : XY;
  positionAbsolute : option XY;
  parentNode : option string;
  width : option Z;
  height : option Z;
  style : option Style;
  zIndex : option Z;
  extent : option Extent;
  data : gmap string AttrVal;
}.

Record Edge := mkEdge { edge_id : string; source : string; target : string }.

(** [Partial<Node>]: a key is present ([Some v]) or not ([None]); a present
    key may carry [undefined], hence the nested options. *)
Record PartialNode := mkPartial {
  p_id : option string;
  p_type : option (option string);
  p_position : option XY;
  p_positionAbsolute : option (option XY);
  p_parentNode : option (option string);
  p_width : option (option Z);
  p_height : option (option Z);
  p_style : option (option Style);
  p_zIndex : option (option Z);
  p_extent : option (option Extent);
  p_data : option (gmap string AttrVal);
}.

(** [{ ...node, ...payload }] *)
Definition spread (node : Node) (payload : PartialNode) : Node :=
  {| id := default (id node) (p_id payload);
     type := default (type node) (p_type payload);
     position := default (position node) (p_position payload);
     positionAbsolute := default (positionAbsolute node) (p_positionAbsolute payload);
     parentNode := default (parentNode node) (p_parentNode payload);
     width := default (width node) (p_width payload);
     height := default (height node) (p_height payload);
     style := default (style node) (p_style payload);
     zIndex := default (zIndex node) (p_zIndex payload);
     extent := default (extent node) (p_extent payload);
     data := default (data node) (p_data payload) |}.

(** [{ ...node, data: { ...node.data, ...newData } }]: the keys of [newData]
    win. *)
Definition spreadData (node : Node) (newData : gmap string AttrVal) : Node :=
  {| id := id node; type := type node; position := position node;
     positionAbsolute := positionAbsolute node; parentNode := parentNode node;
     width := width node; height := height node; style := style node;
     zIndex := zIndex node; extent := extent node;
     data := newData ∪ data node |}.

(** ** JavaScript truthiness helpers *)

(** [a || b] on strings: [undefined] and the empty string are falsy. *)
Definition str_or (a : option string) (b : string) : string :=
  match a with
  | Some s => if String.eqb s "" then b else s
  | None => b
  end.

(** Truthiness of an optional string. *)
Definition truthy (a : option string) : bool :=
  match a with
  | Some s => negb (String.eqb s "")
  | None => false
  end.

(** [a || d] on numbers: [undefined] and [0] are falsy. *)
Definition num_or (a : option Z) (d : Z) : Z :=
  match a with
  | Some n => if (n =? 0)%Z then d else n
  | None => d
  end.

Definition isSome {A} (o : option A) : bool :=
  match o with Some _ => true | None => false end.

(** [nodes.find(n => n.id === key)]; no node has id [undefined]. *)
Definition findById (key : option string) (ns : list Node) : option Node :=
  match key with
  | Some k => List.find (fun n => String.eqb (id n) k) ns
  | None => None
  end.

(** ** The graph store (store.ts) *)

Record RFState := mkState {
  nodes : list Node;
  nodes_ref : nat;   (* identity of the array object in [state.nodes] *)
  edges : list Edge;
  totalCost : Z;
  costBreakdown : gmap string Z;
  next_ref : nat;    (* identities below this one are already in use *)
}.

Definition initialState : RFState :=
  {| nodes := []; nodes_ref := 0; edges := []; totalCost := 0%Z;
     costBreakdown := ∅; next_ref := 1 |}.

(** [set({ nodes: arr })] where [arr] is an array built by the caller
    (a spread literal, [map], [filter], [applyNodeChanges]). *)
Definition setNodes (arr : list Node) (st : RFState) : RFState :=
  {| nodes := arr; nodes_ref := next_ref st; edges := edges st;
     totalCost := totalCost st; costBreakdown := costBreakdown st;
     next_ref := S (next_ref st) |}.

Definition addNode (node : Node) (st : RFState) : RFState :=
  setNodes (nodes st ++ [node]) st.

Definition updateNodeData (nodeId : string) (newData : gmap string AttrVal)
    (st : RFState) : RFState :=
  setNodes
    (map (fun node => if String.eqb (id node) nodeId
                      then spreadData node newData else node) (nodes st))
    st.

Definition updateNode (nodeId : string) (payload : PartialNode)
    (st : RFState) : RFState :=
  setNodes
    (map (fun node => if String.eqb (id node) nodeId
                      then spread node payload else node) (nodes st))
    st.

Definition setCosts (total : Z) (breakdown : gmap string Z)
    (st : RFState) : RFState :=
  {| nodes := nodes st; nodes_ref := nodes_ref st; edges := edges st;
     totalCost := total; costBreakdown := breakdown;
     next_ref := next_ref st |}.

(** [useStore.setState({ nodes: [], edges: [] })] (EditorPage, project load). *)
Definition clearDiagram (st : RFState) : RFState :=
  {| nodes := []; nodes_ref := next_ref st; edges := [];
     totalCost := totalCost st; costBreakdown := costBreakdown st;
     next_ref := S (next_ref st) |}.

(** React Flow's [applyNodeChanges] is a dependency of the program.  The two
    kinds of change used below are the position change a drag emits (it
    writes the fields that are present into the node with that id) and the
    removal of a node. *)
Inductive NodeChange :=
  | PositionChange (cid : string) (cpos : option XY) (cabs : option XY)
  | RemoveChange (cid : string).

Definition applyNodeChange (ch : NodeChange) (ns : list Node) : list Node :=
  match ch with
  | PositionChange cid cpos cabs =>
      map (fun node =>
             if String.eqb (id node) cid
             then spread node
                    {| p_id := None; p_type := None; p_position := cpos;
                       p_positionAbsolute := Some <$> cabs;
                       p_parentNode := None; p_width := None;
                       p_height := None; p_style := None; p_zIndex := None;
                       p_extent := None; p_data := None |}
             else node) ns
  | RemoveChange cid =>
      filter (fun node => id node ≠ cid) ns
  end.

Definition applyNodeChanges (changes : list NodeChange) (ns : list Node)
    : list Node :=
  foldl (fun acc ch => applyNodeChange ch acc) ns changes.

Definition onNodesChange (changes : list NodeChange) (st : RFState) : RFState :=
  setNodes (applyNodeChanges changes (nodes st)) st.

(** ** Placement rules (validation.ts) *)

Record Rule := mkRule {
  allowedParents : list string;
  mustHaveParent : bool;
  exceptions : option (list string);
  errorMessage : string;
}.

(** The own properties of the [RULES] object literal. *)
Definition RULES : gmap string Rule :=
  <["subnet" := {| allowedParents := ["vpc"]; mustHaveParent := true;
                   exceptions := None;
                   errorMessage := "Subnets must be placed inside a VPC." |}]>
  (<["service" := {| allowedParents := ["subnet"]; mustHaveParent := true;
                     exceptions := Some ["s3"];
                     errorMessage :=
                       "Compute resources must be placed inside a Subnet." |}]>
  (<["vpc" := {| allowedParents := []; mustHaveParent := false;
                 exceptions := None; errorMessage := "" |}]>
  (<["eks" := {| allowedParents := ["subnet"]; mustHaveParent := true;
                 exceptions := None;
                 errorMessage :=
                   "EKS clusters must be placed inside a Subnet." |}]>
  (<["eks-node-group" :=
       {| allowedParents := ["eks"]; mustHaveParent := true;
          exceptions := None;
          errorMessage :=
            "Node groups must be placed inside an EKS cluster." |}]> ∅)))).

(** [RULES] is a plain object, so [RULES[k]] also sees what it inherits from
    [Object.prototype]: a function (or, for [__proto__], the prototype
    itself), which is truthy and has none of the rule fields. *)
Definition object_prototype_keys : list string :=
  ["constructor"; "__proto__"; "hasOwnProperty"; "isPrototypeOf";
   "propertyIsEnumerable"; "toLocaleString"; "toString"; "valueOf";
   "__defineGetter__"; "__defineSetter__"; "__lookupGetter__";
   "__lookupSetter__"].

Inductive RuleLookup :=
  | OwnRule (r : Rule)
  | Inherited
  | NoRule.

(** [RULES[nodeType]] *)
Definition lookupRule (nodeType : string) : RuleLookup :=
  match RULES !! nodeType with
  | Some r => OwnRule r
  | None =>
      if existsb (String.eqb nodeType) object_prototype_keys
      then Inherited else NoRule
  end.

(** [node.data.type] *)
Definition specificType (node : Node) : option AttrVal := data node !! "type".

Definition isStr (v : option AttrVal) (s : string) : bool :=
  match v with
  | Some (VStr t) => String.eqb t s
  | _ => false
  end.

(** [arr.includes(v)] for an array of strings. *)
Definition includesVal (arr : list string) (v : option AttrVal) : bool :=
  existsb (isStr v) arr.

Definition includesStr (arr : list string) (v : option string) : bool :=
  match v with
  | Some s => existsb (String.eqb s) arr
  | None => false
  end.

(** The key under which the rule is looked up (lines 37-46); in the first
    two branches [node.data.type] is the string just tested. *)
Definition nodeTypeOf (node : Node) : string :=
  if isStr (specificType node) "vpc" then str_or (type node) "vpc"
  else if isStr (specificType node) "subnet" then str_or (type node) "subnet"
  else if isStr (specificType node) "eks" then "eks"
  else if isStr (specificType node) "eks-node-group" then "eks-node-group"
  else "service".

Record Verdict := mkVerdict { valid : bool; message : option string }.

Definition validatePlacement (node : Node) (parent : option Node)
    : Completion Verdict :=
  match lookupRule (nodeTypeOf node) with
  | NoRule => Normal {| valid := true; message := None |}
  | Inherited =>
      (* no [exceptions], no [mustHaveParent]; [allowedParents.includes]
         is a property read on undefined *)
      match parent with
      | Some _ => Throw TypeError
      | None => Normal {| valid := true; message := None |}
      end
  | OwnRule rule =>
      if match exceptions rule with
         | Some ex => includesVal ex (specificType node)
         | None => false
         end
      then Normal {| valid := true; message := None |}
      else if mustHaveParent rule && negb (isSome parent)
      then Normal {| valid := false; message := Some (errorMessage rule) |}
      else match parent with
           | Some p =>
               if negb (includesStr (allowedParents rule) (type p))
               then Normal {| valid := false;
                              message := Some (errorMessage rule) |}
               else Normal {| valid := true; message := None |}
           | None => Normal {| valid := true; message := None |}
           end
  end.

(** ** The canvas component (Canvas.tsx) *)

Definition Z_LAYERS_vpc : Z := 10.
Definition Z_LAYERS_subnet : Z := 20.
Definition Z_LAYERS_eks : Z := 25.
Definition Z_LAYERS_resource : Z := 30.

(** [dragRef.current] *)
Record DragSnapshot := mkSnap {
  drag_id : string;
  drag_position : XY;
  drag_parentNode : option string;
}.

Record Canvas := mkCanvas {
  store : RFState;
  dragRef : option DragSnapshot;
  alerts : list string;   (* the messages shown by [alert], oldest first *)
}.

Definition withStore (st : RFState) (c : Canvas) : Canvas :=
  {| store := st; dragRef := dragRef c; alerts := alerts c |}.

Definition alert (msg : string) (c : Canvas) : Canvas :=
  {| store := store c; dragRef := dragRef c; alerts := alerts c ++ [msg] |}.

Definition setDragRef (r : option DragSnapshot) (c : Canvas) : Canvas :=
  {| store := store c; dragRef := r; alerts := alerts c |}.

Definition addXY (a b : XY) : XY :=
  {| pos_x := pos_x a + pos_x b; pos_y := pos_y a + pos_y b |}.

Definition subXY (a b : XY) : XY :=
  {| pos_x := pos_x a - pos_x b; pos_y := pos_y a - pos_y b |}.

(** [getAbsolutePosition]; [depth] is the number of stack frames left, and a
    recursion that needs more throws. *)
Fixpoint getAbsolutePosition (depth : nat) (ns : list Node)
    (node : option Node) : Completion XY :=
  match depth with
  | O => Throw RangeError
  | S d =>
      match node with
      | None => Normal {| pos_x := 0; pos_y := 0 |}
      | Some n =>
          match positionAbsolute n with
          | Some p => Normal p
          | None =>
              let* parentPos :=
                getAbsolutePosition d ns (findById (parentNode n) ns) in
              Normal (addXY (position n) parentPos)
          end
      end
  end.

(** [onNodeDragStart] (lines 94-100). *)
Definition onNodeDragStart (node : Node) (c : Canvas) : Canvas :=
  setDragRef
    (Some {| drag_id := id node; drag_position := position node;
             drag_parentNode := parentNode node |}) c.

(** [n.type === t] *)
Definition typeIs (n : Node) (t : string) : bool :=
  match type n with
  | Some s => String.eqb s t
  | None => false
  end.

(** [n.type === 'vpc' || n.type === 'subnet' || n.type === 'eks'] *)
Definition isContainerNode (n : Node) : bool :=
  typeIs n "vpc" || typeIs n "subnet" || typeIs n "eks".

(** [arr.sort((a, b) => (b.zIndex || 0) - (a.zIndex || 0))]: a stable sort
    by descending z-index. *)
Fixpoint insertByZ (n : Node) (l : list Node) : list Node :=
  match l with
  | [] => [n]
  | m :: l' =>
      if (num_or (zIndex m) 0 <=? num_or (zIndex n) 0)%Z
      then n :: m :: l'
      else m :: insertByZ n l'
  end.

Definition sortByZ (l : list Node) : list Node := foldr insertByZ [] l.

(** [parent.width || parent.style?.width || d] *)
Definition boxWidth (parent : Node) (d : Z) : Z :=
  num_or (width parent) (num_or (style parent ≫= style_width) d).

(** [parent.height || parent.style?.height || d] *)
Definition boxHeight (parent : Node) (d : Z) : Z :=
  num_or (height parent) (num_or (style parent ≫= style_height) d).

(** [nodeCenter]: the absolute position plus half the node's size. *)
Record Center := mkCenter { center_x : Q; center_y : Q }.

Definition nodeCenterOf (node : Node) (nodeAbs : XY) : Center :=
  {| center_x := inject_Z (pos_x nodeAbs) + (num_or (width node) 0 # 2);
     center_y := inject_Z (pos_y nodeAbs) + (num_or (height node) 0 # 2) |}.

(** [isInside] of the drag-stop loop (inclusive bounds). *)
Definition centerInside (c : Center) (pAbs : XY) (pW pH : Z) : bool :=
  Qle_bool (inject_Z (pos_x pAbs)) (center_x c) &&
  Qle_bool (center_x c) (inject_Z (pos_x pAbs + pW)) &&
  Qle_bool (inject_Z (pos_y pAbs)) (center_y c) &&
  Qle_bool (center_y c) (inject_Z (pos_y pAbs + pH)).

(** The four pairings accepted inside the drag-stop loop (lines 130-133). *)
Definition dragPairing (node parent : Node) : bool :=
  (typeIs node "service" && typeIs parent "subnet") ||
  (typeIs node "subnet" && typeIs parent "vpc") ||
  (typeIs node "eks" && typeIs parent "subnet") ||
  (typeIs node "eks-node-group" && typeIs parent "eks").

(** The [for ... of potentialParents] loop of [onNodeDragStop]. *)
Fixpoint dragHitTest (depth : nat) (ns : list Node) (node : Node)
    (c : Center) (candidates : list Node) : Completion (option Node) :=
  match candidates with
  | [] => Normal None
  | parent :: rest =>
      let* pAbs := getAbsolutePosition depth ns (Some parent) in
      if centerInside c pAbs (boxWidth parent 0) (boxHeight parent 0)
         && dragPairing node parent
      then Normal (Some parent)
      else dragHitTest depth ns node c rest
  end.

(** [potentialParents] of [onNodeDragStop] (lines 112-114). *)
Definition dragCandidates (ns : list Node) (node : Node) : list Node :=
  sortByZ (List.filter
             (fun n => isContainerNode n && negb (String.eqb (id n) (id node)))
             ns).

(** The payload of the revert (lines 145-149). *)
Definition revertPayload (snap : DragSnapshot) : PartialNode :=
  {| p_id := None; p_type := None; p_position := Some (drag_position snap);
     p_positionAbsolute := None;
     p_parentNode := Some (drag_parentNode snap);
     p_width := None; p_height := None; p_style := None; p_zIndex := None;
     p_extent := Some None; p_data := None |}.

(** The payload of a commit (lines 157-163 and 169-172). *)
Definition reparentPayload (newParentId : option string) (pos : XY)
    : PartialNode :=
  {| p_id := None; p_type := None; p_position := Some pos;
     p_positionAbsolute := None; p_parentNode := Some newParentId;
     p_width := None; p_height := None; p_style := None; p_zIndex := None;
     p_extent := None; p_data := None |}.

(** [dragRef.current && dragRef.current.id === node.id] *)
Definition snapshotMatches (r : option DragSnapshot) (node : Node) : bool :=
  match r with
  | Some snap => String.eqb (drag_id snap) (id node)
  | None => false
  end.

(** [onNodeDragStop] (lines 102-180). *)
Definition onNodeDragStop (depth : nat) (node : Node) (c : Canvas)
    : Completion Canvas :=
  if typeIs node "vpc" then Normal c
  else
    let ns := nodes (store c) in
    let* nodeAbs := getAbsolutePosition depth ns (Some node) in
    let nodeCenter := nodeCenterOf node nodeAbs in
    let* newParent :=
      dragHitTest depth ns node nodeCenter (dragCandidates ns node) in
    let* validation := validatePlacement node newParent in
    if negb (valid validation) then
      let c1 :=
        alert ("Invalid Move: " ++ default "undefined" (message validation))
          c in
      match dragRef c1 with
      | Some snap =>
          if String.eqb (drag_id snap) (id node)
          then Normal (withStore (updateNode (id node) (revertPayload snap)
                                    (store c1)) c1)
          else Normal c1
      | None => Normal c1
      end
    else
      match newParent with
      | Some p =>
          if negb (bool_decide (parentNode node = Some (id p))) then
            let* pAbs := getAbsolutePosition depth ns (Some p) in
            Normal (setDragRef None
                      (withStore
                         (updateNode (id node)
                            (reparentPayload (Some (id p)) (subXY nodeAbs pAbs))
                            (store c)) c))
          else Normal (setDragRef None c)
      | None =>
          if truthy (parentNode node) then
            Normal (setDragRef None
                      (withStore
                         (updateNode (id node) (reparentPayload None nodeAbs)
                            (store c)) c))
          else Normal (setDragRef None c)
      end.

(** *** Palette drop *)

(** [isContainer] *)
Definition isContainerType (t : string) : bool :=
  String.eqb t "vpc" || String.eqb t "subnet" || String.eqb t "eks".

(** [defaultData] (lines 211-268). *)
Definition defaultData (t : string) : gmap string AttrVal :=
  let base : gmap string AttrVal :=
    <["label" := VStr ("New " ++ t)]> (<["type" := VStr t]> ∅) in
  if String.eqb t "vpc" then
    <["cidr" := VStr "10.0.0.0/16"]> (<["enableDnsHostnames" := VBool true]> base)
  else if String.eqb t "subnet" then
    <["cidr" := VStr "10.0.1.0/24"]>
      (<["az" := VStr "us-east-1a"]> (<["mapPublicIp" := VBool true]> base))
  else if String.eqb t "ec2" then
    <["instanceType" := VStr "t3.micro"]> (<["ami" := VStr "ubuntu-22.04"]> base)
  else if String.eqb t "rds" then
    <["label" := VStr "my-db"]>
      (<["engine" := VStr "mysql"]>
         (<["instanceClass" := VStr "db.t3.micro"]>
            (<["allocatedStorage" := VNum 20]>
               (<["username" := VStr "admin"]> base))))
  else if String.eqb t "s3" then
    <["label" := VStr "my-app-bucket"]>
      (<["versioning" := VBool false]> (<["forceDestroy" := VBool false]> base))
  else if String.eqb t "eks" then
    <["label" := VStr "my-eks-cluster"]> (<["version" := VStr "1.29"]> base)
  else if String.eqb t "eks-node-group" then
    <["label" := VStr "workers"]>
      (<["instanceTypes" := VList ["t3.medium"]]>
         (<["desiredSize" := VNum 2]>
            (<["minSize" := VNum 1]> (<["maxSize" := VNum 4]> base))))
  else base.

(** [newNode] as first built (lines 271-280); [stamp] is the decimal
    rendering of [Date.now()]. *)
Definition newNodeOf (t : string) (mousePos : XY) (stamp : string) : Node :=
  {| id := t ++ "-" ++ stamp;
     type := Some (if isContainerType t then t else "service");
     position := mousePos;
     positionAbsolute := None;
     parentNode := None;
     width := None;
     height := None;
     style :=
       Some (if String.eqb t "vpc" then
               {| style_width := Some 500%Z; style_height := Some 400%Z |}
             else if String.eqb t "subnet" then
               {| style_width := Some 250%Z; style_height := Some 180%Z |}
             else if String.eqb t "eks" then
               {| style_width := Some 300%Z; style_height := Some 200%Z |}
             else {| style_width := None; style_height := None |});
     zIndex :=
       Some (if String.eqb t "vpc" then Z_LAYERS_vpc
             else if String.eqb t "subnet" then Z_LAYERS_subnet
             else if String.eqb t "eks" then Z_LAYERS_eks
             else Z_LAYERS_resource);
     extent := None;
     data := defaultData t |}.

(** [isInside] of the drop loop (inclusive bounds). *)
Definition pointInside (m : XY) (pAbs : XY) (pW pH : Z) : bool :=
  (pos_x pAbs <=? pos_x m)%Z && (pos_x m <=? pos_x pAbs + pW)%Z &&
  (pos_y pAbs <=? pos_y m)%Z && (pos_y m <=? pos_y pAbs + pH)%Z.

(** [isValid] inside the drop loop (lines 299-303). *)
Definition dropPairing (t : string) (parent : Node) : bool :=
  (String.eqb t "subnet" && typeIs parent "vpc") ||
  (String.eqb t "eks" && typeIs parent "subnet") ||
  (String.eqb t "eks-node-group" && typeIs parent "eks") ||
  (negb (isContainerType t) && typeIs parent "subnet").

(** The [for ... of potentialParents] loop of [onDrop]: the container that
    takes the new node, with its absolute position. *)
Fixpoint dropHitTest (depth : nat) (ns : list Node) (t : string)
    (mousePos : XY) (candidates : list Node) : Completion (option (Node * XY)) :=
  match candidates with
  | [] => Normal None
  | parent :: rest =>
      let* pAbs := getAbsolutePosition depth ns (Some parent) in
      if pointInside mousePos pAbs (boxWidth parent 200) (boxHeight parent 150)
         && dropPairing t parent
      then Normal (Some (parent, pAbs))
      else dropHitTest depth ns t mousePos rest
  end.

(** [potentialParents] of [onDrop] (lines 282-284). *)
Definition dropCandidates (ns : list Node) : list Node :=
  sortByZ (List.filter isContainerNode ns).

(** [newNode] after the loop has assigned [parentNode] and [position]. *)
Definition placeIn (newNode : Node) (hit : option (Node * XY)) (mousePos : XY)
    : Node :=
  match hit with
  | Some (parent, pAbs) =>
      spread newNode
        {| p_id := None; p_type := None;
           p_position := Some (subXY mousePos pAbs);
           p_positionAbsolute := None; p_parentNode := Some (Some (id parent));
           p_width := None; p_height := None; p_style := None;
           p_zIndex := None; p_extent := Some None; p_data := None |}
  | None => newNode
  end.

(** The node and the parent handed to [validatePlacement] by [onDrop]
    (lines 282-320). *)
Definition dropPlacement (depth : nat) (ns : list Node) (t : string)
    (mousePos : XY) (stamp : string) : Completion (Node * option Node) :=
  let* hit := dropHitTest depth ns t mousePos (dropCandidates ns) in
  let newNode := placeIn (newNodeOf t mousePos stamp) hit mousePos in
  let parent :=
    if truthy (parentNode newNode) then findById (parentNode newNode) ns
    else None in
  Normal (newNode, parent).

(** [onDrop]; [t] is [getData('application/reactflow')] and [mousePos] the
    drop point in flow coordinates. *)
Definition onDrop (depth : nat) (t : string) (mousePos : XY) (stamp : string)
    (c : Canvas) : Completion Canvas :=
  if String.eqb t "" then Normal c
  else
    let* placement := dropPlacement depth (nodes (store c)) t mousePos stamp in
    let* validation := validatePlacement (fst placement) (snd placement) in
    if negb (valid validation) then
      Normal (alert ("Cannot create resource here: "
                     ++ default "undefined" (message validation)) c)
    else Normal (withStore (addNode (fst placement) (store c)) c).

(** *** Cost estimation with debounce (the [useEffect] of lines 58-79)

    Time is counted in milliseconds.  The effect depends on [nodes]: React
    runs its cleanup and then the effect again after every render in which
    [state.nodes] is a different array object. *)

Record Timer := mkTimer {
  due : nat;                (* the instant at which the callback runs *)
  captured : list Node;     (* the [nodes] the callback closes over *)
}.

Record App := mkApp {
  canvas : Canvas;
  clock : nat;
  timer : option Timer;             (* the pending [setTimeout], if any *)
  requests : list (list Node);      (* the [estimateCosts] calls issued *)
}.

Definition debounce_ms : nat := 500.

(** Cleanup ([clearTimeout]) followed by the effect body ([setTimeout]). *)
Definition runEffect (a : App) : App :=
  {| canvas := canvas a; clock := clock a;
     timer := Some {| due := clock a + debounce_ms;
                      captured := nodes (store (canvas a)) |};
     requests := requests a |}.

(** The component as first mounted on an empty store. *)
Definition mount : App :=
  runEffect {| canvas := {| store := initialState; dragRef := None;
                            alerts := [] |};
               clock := 0; timer := None; requests := [] |}.

(** A render after the canvas went from [old] to [c]. *)
Definition rerender (old : Canvas) (c : Canvas) (a : App) : App :=
  let a' := {| canvas := c; clock := clock a; timer := timer a;
               requests := requests a |} in
  if bool_decide (nodes_ref (store c) = nodes_ref (store old))
  then a' else runEffect a'.

(** The body of the timeout callback. *)
Definition timeoutCallback (t : Timer) (a : App) : App :=
  match captured t with
  | [] =>
      {| canvas := withStore (setCosts 0 ∅ (store (canvas a))) (canvas a);
         clock := clock a; timer := None; requests := requests a |}
  | _ :: _ =>
      {| canvas := canvas a; clock := clock a; timer := None;
         requests := requests a ++ [captured t] |}
  end.

Inductive Event :=
  | EvNodeDragStart (node : Node)
  | EvNodesChange (changes : list NodeChange)
  | EvNodeDragStop (node : Node)
  | EvDrop (t : string) (mousePos : XY) (stamp : string)
  | EvUpdateNode (nodeId : string) (payload : PartialNode)
  | EvUpdateNodeData (nodeId : string) (newData : gmap string AttrVal)
  | EvClearDiagram
  | EvAddNode (node : Node)
  | EvElapse (ms : nat)
  | EvCostResponse (total : Z) (breakdown : gmap string Z)
  | EvCostFailure.

(** A handler that throws has written nothing. *)
Definition orKeep (c : Canvas) (r : Completion Canvas) : Canvas :=
  match r with
  | Normal c' => c'
  | Throw _ => c
  end.

Definition handle (depth : nat) (ev : Event) (c : Canvas) : Canvas :=
  match ev with
  | EvNodeDragStart node => onNodeDragStart node c
  | EvNodesChange changes => withStore (onNodesChange changes (store c)) c
  | EvNodeDragStop node => orKeep c (onNodeDragStop depth node c)
  | EvDrop t mousePos stamp => orKeep c (onDrop depth t mousePos stamp c)
  | EvUpdateNode nodeId payload =>
      withStore (updateNode nodeId payload (store c)) c
  | EvUpdateNodeData nodeId newData =>
      withStore (updateNodeData nodeId newData (store c)) c
  | EvClearDiagram => withStore (clearDiagram (store c)) c
  | EvAddNode node => withStore (addNode node (store c)) c
  | EvCostResponse total breakdown =>
      withStore (setCosts total breakdown (store c)) c
  | EvElapse _ | EvCostFailure => c
  end.

Definition step (depth : nat) (ev : Event) (a : App) : App :=
  match ev with
  | EvElapse ms =>
      let a' := {| canvas := canvas a; clock := clock a + ms;
                   timer := timer a; requests := requests a |} in
      match timer a with
      | Some t => if bool_decide (due t ≤ clock a + ms)
                  then timeoutCallback t a' else a'
      | None => a'
      end
  | _ => rerender (canvas a) (handle depth ev (canvas a)) a
  end.

Definition run (depth : nat) (evs : list Event) (a : App) : App :=
  foldl (fun acc ev => step depth ev acc) a evs.

(** *** A complete drag: start, the moves React Flow reports, stop

    React Flow hands each handler the dragged node as the store holds it at
    that moment. *)
Definition dragGesture (depth : nat) (nodeId : string)
    (moves : list NodeChange) (c : Canvas) : Completion Canvas :=
  match findById (Some nodeId) (nodes (store c)) with
  | None => Normal c
  | Some n0 =>
      let c1 := onNodeDragStart n0 c in
      let c2 := withStore (onNodesChange moves (store c1)) c1 in
      match findById (Some nodeId) (nodes (store c2)) with
      | None => Normal c2
      | Some n1 => onNodeDragStop depth n1 c2
      end
  end.

(** ** A sample diagram

    VPC [A] at the canvas origin, subnet [B] inside it, and in [B] an EC2
    instance [C] and an S3 bucket [D]. *)

Definition sampleNode (i : string) (t : string) (dt : string) (p : XY)
    (par : option string) (w h : Z) (z : Z) : Node :=
  {| id := i; type := Some t; position := p; positionAbsolute := None;
     parentNode := par; width := Some w; height := Some h; style := None;
     zIndex := Some z; extent := None;
     data := <["type" := VStr dt]> ∅ |}.

Definition vpcA : Node :=
  sampleNode "A" "vpc" "vpc" (mkXY 0 0) None 500 400 Z_LAYERS_vpc.
Definition subnetB : Node :=
  sampleNode "B" "subnet" "subnet" (mkXY 10 10) (Some "A") 250 180 Z_LAYERS_subnet.
Definition ec2C : Node :=
  sampleNode "C" "service" "ec2" (mkXY 20 20) (Some "B") 50 50 Z_LAYERS_resource.
Definition bucketD : Node :=
  sampleNode "D" "service" "s3" (mkXY 20 20) (Some "B") 50 50 Z_LAYERS_resource.

(** A node of a kind the table does not list. *)
Definition lambdaE : Node :=
  sampleNode "E" "lambda" "lambda" (mkXY 700 700) None 50 50 Z_LAYERS_resource.

Definition sampleState (ns : list Node) : RFState :=
  {| nodes := ns; nodes_ref := 0; edges := []; totalCost := 0;
     costBreakdown := ∅; next_ref := 1 |}.

Definition sampleCanvas (ns : list Node) : Canvas :=
  {| store := sampleState ns; dragRef := None; alerts := [] |}.

Definition okVerdict : Verdict := {| valid := true; message := None |}.

Definition rejected (r : Rule) : Verdict :=
  {| valid := false; message := Some (errorMessage r) |}.

(** A subnet-like node whose [node.type] has no rule. *)
Definition gatewayF : Node :=
  sampleNode "F" "nat-gateway" "subnet" (mkXY 0 0) None 10 10 0.

(** A root node carrying a cached [positionAbsolute] that differs from its
    [position]. *)
Definition cachedG : Node :=
  {| id := "G"; type := Some "service"; position := mkXY 1 1;
     positionAbsolute := Some (mkXY 100 100); parentNode := None;
     width := Some 50%Z; height := Some 50%Z; style := None;
     zIndex := Some Z_LAYERS_resource; extent := None;
     data := <["type" := VStr "ec2"]> ∅ |}.

(** ** Resolvable parent chains

    [Resolvable ns n h]: following [parentNode] from [n] through [ns] ends,
    after [h] nodes, at a node without parent; every [parentNode] on the way
    names a node of [ns].  A chain that runs into a cycle has no height. *)
Inductive Resolvable (ns : list Node) : Node -> nat -> Prop :=
  | resolvable_root n :
      parentNode n = None -> Resolvable ns n 1
  | resolvable_child n p h :
      findById (parentNode n) ns = Some p ->
      Resolvable ns p h ->
      Resolvable ns n (S h).

(** The array in [state.nodes] was allocated before the next one will be. *)
Definition wfState (st : RFState) : Prop := nodes_ref st < next_ref st.

(** The three results [onNodeDragStop] computes before it decides: the
    node's absolute position, the container chosen by the hit test, and the
    verdict of the rules on that pair (lines 106-138). *)
Definition dragEvaluation (depth : nat) (node : Node) (ns : list Node)
    : Completion (XY * option Node * Verdict) :=
  let* nodeAbs := getAbsolutePosition depth ns (Some node) in
  let* newParent :=
    dragHitTest depth ns node (nodeCenterOf node nodeAbs)
      (dragCandidates ns node) in
  let* validation := validatePlacement node newParent in
  Normal (nodeAbs, newParent, validation).

Definition snapshotOf (node : Node) : DragSnapshot :=
  {| drag_id := id node; drag_position := position node;
     drag_parentNode := parentNode node |}.

Definition invalidMoveAlert (v : Verdict) : string :=
  "Invalid Move: " ++ default "undefined" (message v).

(** The EC2 instance [C] as a drag has left it, far outside subnet [B]. *)
Definition movedC : Node :=
  sampleNode "C" "service" "ec2" (mkXY 300 300) (Some "B") 50 50
    Z_LAYERS_resource.

(** The resolver returns on every stored node within [depth] frames (no
    parent chain runs into a cycle or is deeper than the stack). *)
Definition resolves (depth : nat) (ns : list Node) : Prop :=
  forall p, In p ns -> exists a, getAbsolutePosition depth ns (Some p) = Normal a.

Definition dropAlert (v : Verdict) : string :=
  "Cannot create resource here: " ++ default "undefined" (message v).

(** An application whose only node [C] has been priced: the node is added,
    the debounce timer fires and the pricing service answers. *)
Definition pricedApp : App :=
  run 10 [EvAddNode ec2C; EvElapse 500; EvElapse 120;
          EvCostResponse 42 {["C" := 42%Z]}] mount.

(** The same application just after node [C] has been deleted. *)
Definition emptiedApp : App :=
  step 10 (EvNodesChange [RemoveChange "C"]) pricedApp.



(** ** Parent chains as lists

    [Ancestors ns n l]: [l] lists [n], its parent, its grandparent, ... as
    [nodes.find] resolves them in [ns], up to the first node whose
    [parentNode] names no node of [ns] (it is absent or dangling). *)
Inductive Ancestors (ns : list Node) : Node -> list Node -> Prop :=
  | ancestors_last n :
      findById (parentNode n) ns = None -> Ancestors ns n [n]
  | ancestors_step n p l :
      findById (parentNode n) ns = Some p ->
      Ancestors ns p l ->
      Ancestors ns n (n :: l).

Definition origin : XY := {| pos_x := 0; pos_y := 0 |}.

(** The sum of the relative positions of a list of nodes. *)
Definition sumPositions (l : list Node) : XY :=
  foldr (fun n acc => addXY (position n) acc) origin l.

(** A set of nodes without cached position that is closed under taking the
    parent: a parent chain that enters it never leaves it, as on a cycle. *)
Definition ParentClosed (ns : list Node) (S : Node -> Prop) : Prop :=
  forall n, S n ->
    positionAbsolute n = None /\
    exists p, findById (parentNode n) ns = Some p /\ S p.

(** Two subnets that name each other as parent. *)
Definition loopL : Node :=
  sampleNode "L" "subnet" "subnet" (mkXY 5 5) (Some "M") 100 100
    Z_LAYERS_subnet.
Definition loopM : Node :=
  sampleNode "M" "subnet" "subnet" (mkXY 7 7) (Some "L") 100 100
    Z_LAYERS_subnet.

(** An instance whose parent [Q] is not in the store. *)
Definition orphanedN : Node :=
  sampleNode "N" "service" "ec2" (mkXY 33 44) (Some "Q") 50 50
    Z_LAYERS_resource.
(** The sort key: [n.zIndex || 0]. *)
Definition zkey (n : Node) : Z := num_or (zIndex n) 0.

(** Descending order of z-index. *)
Definition byZDesc (a b : Node) : Prop := (zkey b <= zkey a)%Z.

(** The test the drag-stop loop applies to a candidate: it fails whenever
    the candidate resolves. *)
Definition dragRejects (depth : nat) (ns : list Node) (node : Node)
    (c : Center) (q : Node) : Prop :=
  forall a,
    getAbsolutePosition depth ns (Some q) = Normal a ->
    centerInside c a (boxWidth q 0) (boxHeight q 0) && dragPairing node q
    = false.

(** A node group as a palette drop creates it: a [service] node whose
    [data.type] is [eks-node-group], here inside a cluster. *)
Definition clusterP : Node :=
  sampleNode "P" "eks" "eks" (mkXY 20 20) (Some "B") 200 120 Z_LAYERS_eks.

Definition nodeGroupR : Node :=
  sampleNode "R" "service" "eks-node-group" (mkXY 10 10) (Some "P") 50 50
    Z_LAYERS_resource.

(** [AvoidsNode ns k q]: resolving [q] in [ns] never looks at a node with
    id [k]: the chain from [q] stops (at a cached position, a node without
    parent or a dangling parent id) before it meets one. *)
Inductive AvoidsNode (ns : list Node) (k : string) : Node -> Prop :=
  | avoids_cached q :
      id q <> k -> positionAbsolute q <> None -> AvoidsNode ns k q
  | avoids_last q :
      id q <> k -> findById (parentNode q) ns = None -> AvoidsNode ns k q
  | avoids_step q p :
      id q <> k -> findById (parentNode q) ns = Some p ->
      AvoidsNode ns k p -> AvoidsNode ns k q.

(** Bucket [D] as a drag has left it on the empty canvas, still a child of
    subnet [B]: its offset is relative to [B]. *)
Definition strayD : Node :=
  sampleNode "D" "service" "s3" (mkXY 600 600) (Some "B") 50 50
    Z_LAYERS_resource.

(** Instance [C] as a drag has left it over a second subnet [S]. *)
Definition subnetS : Node :=
  sampleNode "S" "subnet" "subnet" (mkXY 270 10) (Some "A") 200 180
    Z_LAYERS_subnet.
Definition draggedC : Node :=
  sampleNode "C" "service" "ec2" (mkXY 300 40) (Some "B") 50 50
    Z_LAYERS_resource.
(** Whether a drop of palette type [t] is kept, given what the hit test
    found: a container must have taken the point, and for a node group that
    container must be an EKS cluster. *)
Definition dropKept (t : string) (hit : option (Node * XY)) : bool :=
  match hit with
  | Some (parent, _) =>
      negb (String.eqb t "eks-node-group") || typeIs parent "eks"
  | None => false
  end.

(** The pending timeout callback, if any, closes over the array that is in
    the store now. *)
Definition timerCurrent (a : App) : Prop :=
  forall t, timer a = Some t -> captured t = nodes (store (canvas a)).

(** The cost figures shown to the user. *)
Definition costFigures (a : App) : Z * gmap string Z :=
  (totalCost (store (canvas a)), costBreakdown (store (canvas a))).

(** ** Loading a project (EditorPage, [loadProject])

    [data.diagram_data] may be missing, and so may its [nodes] and [edges];
    an array, even an empty one, is truthy. *)
Record DiagramData := mkDiagram {
  diagram_nodes : option (list Node);
  diagram_edges : option (list Edge);
}.

(** [useStore.setState({ edges: es })] *)
Definition setEdges (es : list Edge) (st : RFState) : RFState :=
  {| nodes := nodes st; nodes_ref := nodes_ref st; edges := es;
     totalCost := totalCost st; costBreakdown := costBreakdown st;
     next_ref := next_ref st |}.

(** The store part of [loadProject]: clear, add the nodes one by one, set
    the edges. *)
Definition loadDiagram (diagram_data : option DiagramData) (st : RFState)
    : RFState :=
  let cleared := clearDiagram st in
  let withNodes :=
    match diagram_data ≫= diagram_nodes with
    | Some ns => foldl (fun acc node => addNode node acc) cleared ns
    | None => cleared
    end in
  match diagram_data ≫= diagram_edges with
  | Some es => setEdges es withNodes
  | None => withNodes
  end.

(** What [handleSave] sends: the node and edge collections as they are. *)
Definition savedDiagram (st : RFState) : DiagramData :=
  {| diagram_nodes := Some (nodes st); diagram_edges := Some (edges st) |}.

(** ** Canvases built by the handlers

    The level of a node type in the containment grammar: a VPC is at the
    top, subnets below it, EKS clusters below subnets, everything else (a
    [service] node, a node group) at the bottom. *)
Definition rank (t : option string) : nat :=
  match t with
  | Some s =>
      if String.eqb s "vpc" then 0
      else if String.eqb s "subnet" then 1
      else if String.eqb s "eks" then 2
      else 3
  | None => 3
  end.

(** Ids are unique, and every node either has no parent or names a stored
    node of a strictly higher level. *)
Definition Layered (ns : list Node) : Prop :=
  NoDup (map id ns) /\
  forall n, In n ns ->
    parentNode n = None \/
    exists p, findById (parentNode n) ns = Some p /\
              rank (type p) < rank (type n).

(** What the layering looks at. *)
Definition linkOf (n : Node) : string * option string * option string :=
  (id n, type n, parentNode n).

(** The moves of a drag that reports positions only (no node is removed). *)
Definition movesOnly (moves : list NodeChange) : Prop :=
  Forall (fun ch => exists cid cpos cabs, ch = PositionChange cid cpos cabs)
    moves.

(** A canvas built from an empty one by palette drops, each under an id not
    yet in use, and by complete drags. *)
Inductive Built (depth : nat) : Canvas -> Prop :=
  | built_empty c :
      nodes (store c) = [] -> Built depth c
  | built_drop c c' t mousePos stamp :
      Built depth c ->
      (forall n, In n (nodes (store c)) -> id n <> (t ++ "-" ++ stamp)%string) ->
      onDrop depth t mousePos stamp c = Normal c' ->
      Built depth c'
  | built_drag c c' nodeId moves :
      Built depth c ->
      movesOnly moves ->
      dragGesture depth nodeId moves c = Normal c' ->
      Built depth c'.

(** The canvas after a VPC, a subnet in it and an instance in the subnet
    have been dropped in turn, and after the instance has then been dragged
    a few pixels. *)
Definition grown1 : Canvas :=
  orKeep (sampleCanvas [])
    (onDrop 10 "vpc" (mkXY 0 0) "1" (sampleCanvas [])).
Definition grown2 : Canvas :=
  orKeep grown1 (onDrop 10 "subnet" (mkXY 10 10) "2" grown1).
Definition grown3 : Canvas :=
  orKeep grown2 (onDrop 10 "ec2" (mkXY 30 30) "3" grown2).
Definition grown4 : Canvas :=
  orKeep grown3
    (dragGesture 10 "ec2-3"
       [PositionChange "ec2-3" (Some (mkXY 25 25)) None] grown3).

(** ** The theme store (themeStore.ts)

    The store as it is created in a browser ([window] defined).  Its state
    is the two zustand fields together with what the module reads and writes
    outside the store: the [cloudgraph-theme] item of [localStorage], the
    media query [(prefers-color-scheme: dark)] and the [dark] class of the
    document element.  [getStoredTheme] casts the stored item to [Theme]
    without testing it, so [theme] and [resolvedTheme] are strings. *)
Record ThemeStore := mkThemeStore {
  storedTheme : option string;
  prefersDark : bool;
  darkClass : bool;
  theme : string;
  resolvedTheme : string
}.

(** The TypeScript type [Theme], the type of [setTheme]'s argument. *)
Inductive Theme := Light | Dark | System.

Definition themeName (t : Theme) : string :=
  match t with
  | Light => "light"
  | Dark => "dark"
  | System => "system"
  end.

Definition getSystemTheme (s : ThemeStore) : string :=
  if prefersDark s then "dark" else "light".

Definition getStoredTheme (s : ThemeStore) : string :=
  str_or (storedTheme s) "system".

Definition applyTheme (t : string) (s : ThemeStore) : ThemeStore :=
  mkThemeStore (storedTheme s) (prefersDark s)
    (if String.eqb t "dark" then true else false)
    (theme s) (resolvedTheme s).

Definition resolveTheme (t : string) (s : ThemeStore) : string :=
  if String.eqb t "system" then getSystemTheme s else t.

Definition setItem (t : string) (s : ThemeStore) : ThemeStore :=
  mkThemeStore (Some t) (prefersDark s) (darkClass s)
    (theme s) (resolvedTheme s).

(** [create((set, get) => ...)]: the initial state, from storage, the media
    query and the class list found at load time. *)
Definition createThemeStore (item : option string) (dark cls : bool)
  : ThemeStore :=
  let env := mkThemeStore item dark cls "" "" in
  let initialTheme := getStoredTheme env in
  let initialResolved := resolveTheme initialTheme env in
  let env := applyTheme initialResolved env in
  mkThemeStore (storedTheme env) (prefersDark env) (darkClass env)
    initialTheme initialResolved.

(** The listener of the media query's [change] event; [matches] is the new
    value of the query. *)
Definition systemThemeChanged (matches : bool) (s : ThemeStore)
  : ThemeStore :=
  let s := mkThemeStore (storedTheme s) matches (darkClass s)
             (theme s) (resolvedTheme s) in
  if String.eqb (theme s) "system" then
    let newResolved := if matches then "dark" else "light" in
    let s := applyTheme newResolved s in
    mkThemeStore (storedTheme s) (prefersDark s) (darkClass s)
      (theme s) newResolved
  else s.

Definition setThemeTo (t : string) (s : ThemeStore) : ThemeStore :=
  let resolved := resolveTheme t s in
  let s := setItem t s in
  let s := applyTheme resolved s in
  mkThemeStore (storedTheme s) (prefersDark s) (darkClass s) t resolved.

Definition setTheme (t : Theme) : ThemeStore -> ThemeStore :=
  setThemeTo (themeName t).

Definition toggleTheme (s : ThemeStore) : ThemeStore :=
  let newTheme :=
    if String.eqb (resolvedTheme s) "dark" then "light" else "dark" in
  let s := setItem newTheme s in
  let s := applyTheme newTheme s in
  mkThemeStore (storedTheme s) (prefersDark s) (darkClass s)
    newTheme newTheme.

(** ThemeToggle.tsx, [cycleTheme]. *)
Definition cycleTheme (s : ThemeStore) : ThemeStore :=
  if String.eqb (theme s) "light" then setTheme Dark s
  else if String.eqb (theme s) "dark" then setTheme System s
  else setTheme Light s.

Inductive ThemeEvent :=
| EvSetTheme (t : Theme)
| EvToggleTheme
| EvCycleTheme
| EvSystemTheme (matches : bool).

Definition themeStep (s : ThemeStore) (ev : ThemeEvent) : ThemeStore :=
  match ev with
  | EvSetTheme t => setTheme t s
  | EvToggleTheme => toggleTheme s
  | EvCycleTheme => cycleTheme s
  | EvSystemTheme m => systemThemeChanged m s
  end.

Definition themeRun (evs : list ThemeEvent) (s : ThemeStore) : ThemeStore :=
  foldl themeStep s evs.

(** What the module keeps true of the store after every event. *)
Definition themeConsistent (s : ThemeStore) : Prop :=
  darkClass s = String.eqb (resolvedTheme s) "dark" /\
  resolvedTheme s = resolveTheme (theme s) s /\
  getStoredTheme s = theme s.

(** ** A round trip on IEEE doubles

    The numbers of the program are IEEE doubles.  [offsetAfterRoundTrip rel p]
    is the offset committed, per coordinate, when a node at offset [rel] in a
    container at [p] is resolved (line 87, [node.position.x + parentPos.x])
    and is then made relative to that container again (line 160,
    [nodeAbs.x - pAbs.x]).  [positionAfterReparent a p] is what the resolver
    returns for a node at [a] once its offset from a container at [p] has
    been stored (line 160, then line 87). *)
Definition offsetAfterRoundTrip (rel p : float) : float :=
  PrimFloat.sub (PrimFloat.add rel p) p.

Definition positionAfterReparent (a p : float) : float :=
  PrimFloat.add (PrimFloat.sub a p) p.

(** ** Proof automation *)

(** Projections out of the canvas and store builders. *)
Ltac canvas_simpl :=
  cbn [store dragRef alerts withStore alert setDragRef onNodeDragStart
       onNodesChange updateNode addNode setNodes nodes edges nodes_ref
       next_ref totalCost costBreakdown snapshotMatches drag_id
       drag_position drag_parentNode default snapshotOf] in *.

(** Case analysis on every [match] in sight. *)
Ltac break_match :=
  repeat match goal with
         | |- context [match ?x with _ => _ end] => destruct x eqn:?
         | H : context [match ?x with _ => _ end] |- _ => destruct x eqn:?
         end.

(** * Properties *)

(** ** Placement rules *)

Lemma RULES_lookup_inv k r :
  RULES !! k = Some r ->
  exceptions r = None \/ (k = "service" /\ exceptions r = Some ["s3"]).
Proof.
  unfold RULES. intros H.
  repeat (rewrite lookup_insert in H; case_decide; [ simplify_eq; auto | ]).
  rewrite lookup_empty in H. discriminate.
Qed.

Lemma isStr_true v s : isStr v s = true <-> v = Some (VStr s).
Proof.
  destruct v as [[t| | |]|]; simpl;
    try (split; [discriminate | intros; discriminate]).
  rewrite String.eqb_eq. split; congruence.
Qed.

Lemma nodeTypeOf_s3 node :
  isStr (specificType node) "s3" = true -> nodeTypeOf node = "service".
Proof.
  intros H. apply isStr_true in H. unfold nodeTypeOf. rewrite H. reflexivity.
Qed.

(** Every [data.type] other than the four container kinds is looked up as
    a service, whatever [node.type] says. *)
Lemma nodeTypeOf_other node :
  isStr (specificType node) "vpc" = false ->
  isStr (specificType node) "subnet" = false ->
  isStr (specificType node) "eks" = false ->
  isStr (specificType node) "eks-node-group" = false ->
  nodeTypeOf node = "service".
Proof. unfold nodeTypeOf. intros -> -> -> ->. reflexivity. Qed.

(** C2, as stated, fails: the S3 exemption is tested before the parent is
    looked at, so a bucket whose candidate parent is a VPC (not the subnet
    the table requires) is accepted. *)
Lemma validatePlacement_bucket_in_vpc :
  nodeTypeOf bucketD = "service" /\
  specificType bucketD = Some (VStr "s3") /\
  type vpcA = Some "vpc" /\
  (exists r, RULES !! "service" = Some r /\
             includesStr (allowedParents r) (type vpcA) = false) /\
  validatePlacement bucketD (Some vpcA) = Normal okVerdict.
Proof.
  repeat split; try reflexivity.
  eexists. split; reflexivity.
Qed.

(** C2 (amended): for a child whose lookup key has a rule in the table and a
    candidate parent whose type is not in the rule's [allowedParents], the
    check rejects with the rule's message, unless the child's [data.type] is
    [s3]: a bucket is accepted with that parent too. *)
Theorem validatePlacement_wrong_parent node r p :
  RULES !! nodeTypeOf node = Some r ->
  includesStr (allowedParents r) (type p) = false ->
  validatePlacement node (Some p) =
    Normal (if isStr (specificType node) "s3" then okVerdict else rejected r).
Proof.
  intros Hr Hp. unfold validatePlacement, lookupRule. rewrite Hr.
  destruct (isStr (specificType node) "s3") eqn:Hs3.
  - rewrite (nodeTypeOf_s3 _ Hs3) in Hr. vm_compute in Hr.
    simplify_eq. simpl. rewrite Hs3. reflexivity.
  - destruct (RULES_lookup_inv _ _ Hr) as [-> | [_ ->]]; simpl.
    + rewrite andb_false_r, Hp. reflexivity.
    + rewrite Hs3. simpl. rewrite andb_false_r, Hp. reflexivity.
Qed.

(** An EC2 instance offered a VPC as parent is rejected. *)
Lemma validatePlacement_wrong_parent_witness :
  validatePlacement ec2C (Some vpcA) =
    Normal {| valid := false;
              message :=
                Some "Compute resources must be placed inside a Subnet." |}.
Proof.
  refine (validatePlacement_wrong_parent ec2C
            {| allowedParents := ["subnet"]; mustHaveParent := true;
               exceptions := Some ["s3"];
               errorMessage :=
                 "Compute resources must be placed inside a Subnet." |}
            vpcA _ _); reflexivity.
Defined.

(** C7, as stated, fails: a child whose node type and resource kind are both
    outside the table is looked up as a service and rejected without a
    subnet. *)
Lemma validatePlacement_unlisted_kind_rejected :
  type lambdaE = Some "lambda" /\
  specificType lambdaE = Some (VStr "lambda") /\
  RULES !! "lambda" = None /\
  validatePlacement lambdaE None =
    Normal {| valid := false;
              message :=
                Some "Compute resources must be placed inside a Subnet." |}.
Proof. repeat split; reflexivity. Qed.

(** C7 (amended): when [RULES[nodeType]] is undefined for the lookup key the
    check computes, the check accepts every candidate parent.  This is only
    the case for a child whose [data.type] is [vpc] or [subnet] and whose
    [node.type] is the key. *)
Theorem validatePlacement_no_rule node :
  lookupRule (nodeTypeOf node) = NoRule ->
  (forall parent, validatePlacement node parent = Normal okVerdict) /\
  type node = Some (nodeTypeOf node) /\
  isStr (specificType node) "vpc" || isStr (specificType node) "subnet" = true.
Proof.
  intros H. split; [| revert H].
  - intros parent. unfold validatePlacement. rewrite H. reflexivity.
  - unfold nodeTypeOf, str_or.
    destruct (isStr (specificType node) "vpc") eqn:E1;
      [| destruct (isStr (specificType node) "subnet") eqn:E2;
         [| destruct (isStr (specificType node) "eks");
            [| destruct (isStr (specificType node) "eks-node-group")]]];
      try (vm_compute; discriminate).
    + destruct (type node) as [t|]; [| vm_compute; discriminate].
      destruct (String.eqb t ""); [vm_compute; discriminate | auto].
    + destruct (type node) as [t|]; [| vm_compute; discriminate].
      destruct (String.eqb t ""); [vm_compute; discriminate | auto].
Qed.

(** A subnet-like node of type [nat-gateway] is accepted anywhere. *)
Lemma validatePlacement_no_rule_witness :
  lookupRule (nodeTypeOf gatewayF) = NoRule /\
  validatePlacement gatewayF None = Normal okVerdict /\
  validatePlacement gatewayF (Some ec2C) = Normal okVerdict.
Proof.
  assert (H : lookupRule (nodeTypeOf gatewayF) = NoRule) by reflexivity.
  split; [exact H |].
  split; apply (proj1 (validatePlacement_no_rule gatewayF H)).
Defined.

(** ** Coordinate resolver *)

Lemma addXY_origin p : addXY p {| pos_x := 0; pos_y := 0 |} = p.
Proof. destruct p as [a b]. unfold addXY. simpl. f_equal; lia. Qed.

Lemma getAbsolutePosition_mono ns :
  forall d d' node v,
    getAbsolutePosition d ns node = Normal v -> d <= d' ->
    getAbsolutePosition d' ns node = Normal v.
Proof.
  induction d as [| d IH]; intros d' node v H Hle; [discriminate |].
  destruct d' as [| d']; [lia |].
  simpl in *. destruct node as [n |]; [| exact H].
  destruct (positionAbsolute n); [exact H |].
  destruct (getAbsolutePosition d ns (findById (parentNode n) ns)) as [pp |]
    eqn:E; [| discriminate].
  rewrite (IH d' _ pp E ltac:(lia)). exact H.
Qed.

Lemma getAbsolutePosition_resolvable ns n h :
  Resolvable ns n h ->
  forall depth, h < depth ->
    exists a, getAbsolutePosition depth ns (Some n) = Normal a.
Proof.
  induction 1 as [n Hroot | n p h Hfind Hres IH]; intros depth Hlt.
  - destruct depth as [| [| d]]; try lia. simpl.
    destruct (positionAbsolute n); [eauto |].
    rewrite Hroot. simpl. eauto.
  - destruct depth as [| d]; [lia |]. simpl.
    destruct (positionAbsolute n); [eauto |].
    rewrite Hfind. destruct (IH d ltac:(lia)) as [a ->]. simpl. eauto.
Qed.

(** C3, as stated, fails: a node that carries [positionAbsolute] resolves to
    that value, not to its relative position (plus the parent's). *)
Lemma getAbsolutePosition_cached_differs :
  Resolvable [cachedG] cachedG 1 /\
  parentNode cachedG = None /\
  position cachedG = mkXY 1 1 /\
  getAbsolutePosition 5 [cachedG] (Some cachedG) = Normal (mkXY 100 100).
Proof.
  split; [apply resolvable_root; reflexivity |]. repeat split; reflexivity.
Qed.

(** C3 (amended): for a node whose parent chain is resolvable and a stack
    deep enough for it, the resolver returns; a node carrying
    [positionAbsolute] resolves to that value; any other node resolves to its
    parent's resolved position plus its own [position], and to its own
    [position] when it has no parent. *)
Theorem getAbsolutePosition_spec ns n h depth :
  Resolvable ns n h -> h < depth ->
  match positionAbsolute n with
  | Some cached => getAbsolutePosition depth ns (Some n) = Normal cached
  | None =>
      match findById (parentNode n) ns with
      | Some p =>
          exists pa,
            getAbsolutePosition depth ns (Some p) = Normal pa /\
            getAbsolutePosition depth ns (Some n)
              = Normal (addXY (position n) pa)
      | None => getAbsolutePosition depth ns (Some n) = Normal (position n)
      end
  end.
Proof.
  intros Hres Hlt. destruct depth as [| d]; [lia |].
  destruct (positionAbsolute n) as [cached |] eqn:Hc.
  { simpl. rewrite Hc. reflexivity. }
  inversion Hres as [n' Hroot | n' p h' Hfind Hp]; subst.
  - rewrite Hroot. simpl. rewrite Hc, Hroot. simpl.
    destruct d as [| d]; [lia |]. simpl. rewrite addXY_origin. reflexivity.
  - rewrite Hfind.
    destruct (getAbsolutePosition_resolvable _ _ _ Hp d ltac:(lia)) as [pa Hpa].
    exists pa. split.
    + apply (getAbsolutePosition_mono ns d); [exact Hpa | lia].
    + simpl. rewrite Hc, Hfind, Hpa. reflexivity.
Qed.

(** Instance [C] of the sample resolves to subnet [B] plus its own offset. *)
Lemma getAbsolutePosition_spec_witness :
  getAbsolutePosition 10 [vpcA; subnetB; ec2C] (Some subnetB)
    = Normal (mkXY 10 10) /\
  getAbsolutePosition 10 [vpcA; subnetB; ec2C] (Some ec2C)
    = Normal (addXY (position ec2C) (mkXY 10 10)).
Proof.
  assert (Hres : Resolvable [vpcA; subnetB; ec2C] ec2C 3).
  { eapply resolvable_child; [reflexivity |].
    eapply resolvable_child; [reflexivity |].
    apply resolvable_root. reflexivity. }
  pose proof (getAbsolutePosition_spec [vpcA; subnetB; ec2C] ec2C 3 10 Hres
                ltac:(lia)) as H.
  simpl in H. destruct H as [pa [H1 H2]].
  assert (pa = mkXY 10 10) by (vm_compute in H1; congruence). subst pa.
  split; assumption.
Defined.

(** ** Graph store *)

Lemma map_absent_id (f : Node -> Node) nodeId (ns : list Node) :
  (forall n, In n ns -> id n <> nodeId) ->
  map (fun node => if String.eqb (id node) nodeId then f node else node) ns
  = ns.
Proof.
  induction ns as [| n ns IH]; intros Habs; [reflexivity |].
  simpl. rewrite IH by (intros m Hm; apply Habs; right; exact Hm).
  destruct (String.eqb_spec (id n) nodeId) as [E | _]; [| reflexivity].
  exfalso. apply (Habs n); [left; reflexivity | exact E].
Qed.

Lemma wfState_setNodes arr st : wfState (setNodes arr st).
Proof. unfold wfState, setNodes. simpl. lia. Qed.

Lemma wfState_initial : wfState initialState.
Proof. unfold wfState. simpl. lia. Qed.

Lemma wfState_setCosts total breakdown st :
  wfState st -> wfState (setCosts total breakdown st).
Proof. unfold wfState. simpl. auto. Qed.

Lemma wfState_clearDiagram st : wfState (clearDiagram st).
Proof. unfold wfState, clearDiagram. simpl. lia. Qed.

Lemma setNodes_fresh_ref arr st :
  wfState st -> nodes_ref (setNodes arr st) <> nodes_ref st.
Proof. unfold wfState, setNodes. simpl. lia. Qed.

(** C10: with an id that no stored node has, [updateNode] and
    [updateNodeData] leave the content of the collection as it was, yet
    [state.nodes] becomes a new array; the cost effect, which watches
    [nodes] by reference, is run again (its timer restarts). *)
Theorem update_absent_id_replaces_array st nodeId :
  wfState st ->
  (forall n, In n (nodes st) -> id n <> nodeId) ->
  (forall payload,
      nodes (updateNode nodeId payload st) = nodes st /\
      nodes_ref (updateNode nodeId payload st) <> nodes_ref st) /\
  (forall newData,
      nodes (updateNodeData nodeId newData st) = nodes st /\
      nodes_ref (updateNodeData nodeId newData st) <> nodes_ref st) /\
  (forall depth a payload,
      store (canvas a) = st ->
      timer (step depth (EvUpdateNode nodeId payload) a)
      = Some {| due := clock a + debounce_ms; captured := nodes st |}).
Proof.
  intros Hwf Habs. split; [| split].
  - intros payload. split.
    + unfold updateNode. simpl. apply map_absent_id. exact Habs.
    + apply setNodes_fresh_ref. exact Hwf.
  - intros newData. split.
    + unfold updateNodeData. simpl. apply map_absent_id. exact Habs.
    + apply setNodes_fresh_ref. exact Hwf.
  - intros depth a payload Hst. unfold step, rerender, handle. simpl.
    rewrite Hst. rewrite bool_decide_eq_false_2.
    + unfold runEffect. simpl. rewrite map_absent_id by exact Habs.
      reflexivity.
    + unfold wfState in Hwf. lia.
Qed.

(** Updating the unknown id [Z] on the sample store. *)
Lemma update_absent_id_replaces_array_witness :
  wfState (sampleState [vpcA; subnetB]) /\
  nodes (updateNode "Z" (reparentPayload None (mkXY 5 5))
           (sampleState [vpcA; subnetB])) = [vpcA; subnetB] /\
  nodes_ref (updateNode "Z" (reparentPayload None (mkXY 5 5))
               (sampleState [vpcA; subnetB]))
  <> nodes_ref (sampleState [vpcA; subnetB]).
Proof.
  assert (Hwf : wfState (sampleState [vpcA; subnetB])).
  { unfold wfState. simpl. lia. }
  assert (Habs : forall n, In n (nodes (sampleState [vpcA; subnetB])) ->
                           id n <> "Z").
  { simpl. intros n [<- | [<- | []]]; discriminate. }
  split; [exact Hwf |].
  exact (proj1 (update_absent_id_replaces_array _ "Z" Hwf Habs)
           (reparentPayload None (mkXY 5 5))).
Defined.

(** ** Drag and drop controller *)

Lemma onNodeDragStop_vpc depth node c :
  typeIs node "vpc" = true -> onNodeDragStop depth node c = Normal c.
Proof. intros H. unfold onNodeDragStop. rewrite H. reflexivity. Qed.

Lemma onNodeDragStop_invalid depth node c nodeAbs newParent v :
  typeIs node "vpc" = false ->
  dragEvaluation depth node (nodes (store c)) = Normal (nodeAbs, newParent, v) ->
  valid v = false ->
  onNodeDragStop depth node c =
    Normal (if snapshotMatches (dragRef c) node
            then withStore
                   (updateNode (id node)
                      (revertPayload (default (snapshotOf node) (dragRef c)))
                      (store c))
                   (alert (invalidMoveAlert v) c)
            else alert (invalidMoveAlert v) c).
Proof.
  intros Hvpc Hev Hv. unfold onNodeDragStop. rewrite Hvpc.
  unfold dragEvaluation in Hev.
  destruct (getAbsolutePosition depth (nodes (store c)) (Some node))
    as [a |]; [| discriminate]. simpl in *.
  destruct (dragHitTest depth (nodes (store c)) node (nodeCenterOf node a)
              (dragCandidates (nodes (store c)) node))
    as [np |]; [| discriminate]. simpl in *.
  destruct (validatePlacement node np) as [v' |]; [| discriminate].
  simpl in *. injection Hev as -> -> ->. rewrite Hv. simpl.
  unfold snapshotMatches, invalidMoveAlert.
  destruct (dragRef c) as [snap |]; [| reflexivity].
  simpl. destruct (String.eqb (drag_id snap) (id node)); reflexivity.
Qed.

(** C9: on an invalid drag-stop the handler shows the message and leaves
    [dragRef] alone; it writes the snapshot back only if a snapshot exists
    and carries the dragged node's id, and otherwise returns with the store
    exactly as it found it. *)
Theorem onNodeDragStop_revert_guard depth node c nodeAbs newParent v :
  typeIs node "vpc" = false ->
  dragEvaluation depth node (nodes (store c)) = Normal (nodeAbs, newParent, v) ->
  valid v = false ->
  exists c',
    onNodeDragStop depth node c = Normal c' /\
    alerts c' = alerts c ++ [invalidMoveAlert v] /\
    dragRef c' = dragRef c /\
    match dragRef c with
    | Some snap =>
        if String.eqb (drag_id snap) (id node)
        then store c' = updateNode (id node) (revertPayload snap) (store c)
        else store c' = store c
    | None => store c' = store c
    end.
Proof.
  intros Hvpc Hev Hv.
  rewrite (onNodeDragStop_invalid _ _ _ _ _ _ Hvpc Hev Hv).
  eexists. split; [reflexivity |].
  unfold snapshotMatches. destruct (dragRef c) as [snap |] eqn:Hr; simpl.
  - destruct (String.eqb (drag_id snap) (id node)); simpl; rewrite ?Hr; auto.
  - rewrite Hr. auto.
Qed.

(** An invalid stop without snapshot: the alert is shown, the store is kept. *)
Lemma onNodeDragStop_revert_guard_witness :
  exists c',
    onNodeDragStop 10 movedC (sampleCanvas [vpcA; subnetB; movedC])
      = Normal c' /\
    alerts c' = ["Invalid Move: Compute resources must be placed inside a Subnet."] /\
    store c' = sampleState [vpcA; subnetB; movedC].
Proof.
  destruct (onNodeDragStop_revert_guard 10 movedC
              (sampleCanvas [vpcA; subnetB; movedC])
              (mkXY 310 310) None
              {| valid := false;
                 message :=
                   Some "Compute resources must be placed inside a Subnet." |}
              eq_refl eq_refl eq_refl)
    as [c' [H1 [H2 [_ H4]]]].
  exists c'. split; [exact H1 |]. split; [exact H2 | exact H4].
Defined.

(** *** Facts about the moves of a drag *)

Lemma findById_In k ns n :
  findById (Some k) ns = Some n -> In n ns /\ id n = k.
Proof.
  simpl. intros H. apply List.find_some in H as [Hin Heq].
  split; [exact Hin | apply String.eqb_eq; exact Heq].
Qed.

Lemma find_map_same_id (f : Node -> Node) k ns :
  (forall n, id (f n) = id n) ->
  findById (Some k) (map f ns) = f <$> findById (Some k) ns.
Proof.
  intros Hid. simpl. induction ns as [| n ns IH]; [reflexivity |].
  simpl. rewrite Hid. destruct (String.eqb (id n) k); [reflexivity | exact IH].
Qed.

Lemma find_filter_other_id k cid ns n :
  findById (Some k) (filter (fun node => id node <> cid) ns) = Some n ->
  findById (Some k) ns = Some n.
Proof.
  simpl. induction ns as [| m ns IH]; [discriminate |].
  rewrite filter_cons. destruct (decide (id m <> cid)) as [Hne | Heq]; simpl.
  - destruct (String.eqb (id m) k); [auto | exact IH].
  - intros H. destruct (String.eqb_spec (id m) k) as [E | _]; [| auto].
    exfalso. apply List.find_some in H as [Hin Hk].
    apply String.eqb_eq in Hk. apply list_elem_of_In in Hin.
    apply list_elem_of_filter in Hin as [Hn _]. apply Hn.
    destruct (decide (id m = cid)) as [E' | E']; [congruence | tauto].
Qed.

(** The changes of a drag never touch a node's id, type or parent. *)
Lemma findById_applyNodeChange k ch ns n1 :
  findById (Some k) (applyNodeChange ch ns) = Some n1 ->
  exists n0, findById (Some k) ns = Some n0 /\
             id n1 = id n0 /\ type n1 = type n0 /\
             parentNode n1 = parentNode n0.
Proof.
  destruct ch as [cid cpos cabs | cid]; simpl applyNodeChange; intros H.
  - rewrite find_map_same_id in H
      by (intros n; destruct (String.eqb (id n) cid); reflexivity).
    destruct (findById (Some k) ns) as [n0 |]; [| discriminate].
    simpl in H. injection H as <-. exists n0. split; [reflexivity |].
    destruct (String.eqb (id n0) cid); auto.
  - apply find_filter_other_id in H. eauto.
Qed.

Lemma findById_applyNodeChanges k moves :
  forall ns n1,
    findById (Some k) (applyNodeChanges moves ns) = Some n1 ->
    exists n0, findById (Some k) ns = Some n0 /\
               id n1 = id n0 /\ type n1 = type n0 /\
               parentNode n1 = parentNode n0.
Proof.
  induction moves as [| ch moves IH]; intros ns n1 H.
  - exists n1. auto.
  - unfold applyNodeChanges in H. simpl in H.
    apply IH in H as [m [Hm [E1 [E2 E3]]]].
    apply findById_applyNodeChange in Hm as [n0 [Hn0 [F1 [F2 F3]]]].
    exists n0. repeat split; congruence.
Qed.

Lemma findById_unique ns k n0 :
  NoDup (map id ns) -> findById (Some k) ns = Some n0 ->
  forall m, In m ns -> id m = k -> m = n0.
Proof.
  simpl. induction ns as [| n ns IH]; intros Hnd Hfind m Hin Hid;
    [destruct Hin |].
  simpl in Hnd. apply NoDup_cons in Hnd as [Hnotin Hnd]. simpl in Hfind.
  destruct (String.eqb_spec (id n) k) as [E | E].
  - injection Hfind as <-. destruct Hin as [-> | Hin]; [reflexivity |].
    exfalso. apply Hnotin. apply list_elem_of_In. apply in_map_iff.
    exists m. split; [congruence | exact Hin].
  - destruct Hin as [-> | Hin]; [congruence |]. eauto.
Qed.

(** *** Invalid drags *)

(** What a complete drag that the rules reject leaves in the store: the
    revert writes the position and the parent of the drag-start snapshot and
    clears [extent]; every other field of the dragged node stays as the
    moves of the drag left it, [positionAbsolute] included. *)
Lemma invalid_drag_gesture_revert
    depth nodeId moves c n0 n1 nodeAbs newParent v :
  findById (Some nodeId) (nodes (store c)) = Some n0 ->
  findById (Some nodeId) (applyNodeChanges moves (nodes (store c))) = Some n1 ->
  typeIs n1 "vpc" = false ->
  dragEvaluation depth n1 (applyNodeChanges moves (nodes (store c)))
    = Normal (nodeAbs, newParent, v) ->
  valid v = false ->
  exists c',
    dragGesture depth nodeId moves c = Normal c' /\
    alerts c' = alerts c ++ [invalidMoveAlert v] /\
    nodes (store c') =
      map (fun node => if String.eqb (id node) nodeId
                       then spread node (revertPayload (snapshotOf n0))
                       else node)
          (applyNodeChanges moves (nodes (store c))) /\
    edges (store c') = edges (store c) /\
    findById (Some nodeId) (nodes (store c'))
      = Some (spread n1 (revertPayload (snapshotOf n0))) /\
    positionAbsolute (spread n1 (revertPayload (snapshotOf n0)))
      = positionAbsolute n1.
Proof.
  intros Hn0 Hn1 Hvpc Hev Hv.
  destruct (findById_In _ _ _ Hn0) as [Hin0 Hid0].
  destruct (findById_In _ _ _ Hn1) as [_ Hid1].
  unfold dragGesture. rewrite Hn0. canvas_simpl. rewrite Hn1.
  erewrite onNodeDragStop_invalid; [| exact Hvpc | exact Hev | exact Hv].
  canvas_simpl. rewrite Hid0, Hid1, String.eqb_refl.
  eexists. split; [reflexivity |]. canvas_simpl.
  split; [reflexivity |]. split; [reflexivity |]. split; [reflexivity |].
  split; [| reflexivity].
  rewrite find_map_same_id
    by (intros n; destruct (String.eqb (id n) nodeId); reflexivity).
  rewrite Hn1. cbn [fmap option_fmap option_map].
  rewrite Hid1, String.eqb_refl. reflexivity.
Qed.

(** C1: the code breaks the claim on a drag as React Flow reports it.  Every
    move of a drag carries the node's new [position] and its new
    [positionAbsolute], and the store takes both; the revert (lines 145-149,
    which the source comments with going back to the stored valid state)
    writes [position] and [parentNode] back and leaves [positionAbsolute].
    Subnet [B] is dragged out of VPC [A]; the rules reject the stop and the
    revert puts [B] back, but [B] keeps the absolute position of the place
    where it was released and the resolver, which returns a cached position
    first, answers with it.  An instance dropped at (40, 50), inside [B],
    was accepted before the drag and is refused after it. *)
Lemma reverted_drag_keeps_stale_absolute_position :
  exists c' after,
    dragGesture 10 "B"
      [PositionChange "B" (Some (mkXY 350 300)) (Some (mkXY 350 300));
       PositionChange "B" (Some (mkXY 700 700)) (Some (mkXY 700 700))]
      (sampleCanvas [vpcA; subnetB]) = Normal c' /\
    alerts c' = ["Invalid Move: Subnets must be placed inside a VPC."] /\
    nodes (store c') = [vpcA; after] /\
    position after = position subnetB /\
    parentNode after = parentNode subnetB /\
    positionAbsolute subnetB = None /\
    positionAbsolute after = Some (mkXY 700 700) /\
    after <> subnetB /\
    getAbsolutePosition 10 [vpcA; subnetB] (Some subnetB)
      = Normal (mkXY 10 10) /\
    getAbsolutePosition 10 (nodes (store c')) (Some after)
      = Normal (mkXY 700 700) /\
    (exists c1 newNode,
        onDrop 10 "ec2" (mkXY 40 50) "1700000000000"
          (sampleCanvas [vpcA; subnetB]) = Normal c1 /\
        nodes (store c1) = [vpcA; subnetB; newNode] /\
        parentNode newNode = Some "B" /\
        alerts c1 = []) /\
    (exists c2,
        onDrop 10 "ec2" (mkXY 40 50) "1700000000000" c' = Normal c2 /\
        nodes (store c2) = nodes (store c') /\
        alerts c2
        = alerts c'
          ++ ["Cannot create resource here: Compute resources must be placed inside a Subnet."]).
Proof.
  do 2 eexists. split; [reflexivity |]. split; [reflexivity |].
  split; [reflexivity |]. split; [reflexivity |]. split; [reflexivity |].
  split; [reflexivity |]. split; [reflexivity |].
  split; [discriminate |]. split; [reflexivity |]. split; [reflexivity |].
  split.
  - do 2 eexists. split; [reflexivity |]. split; [reflexivity |].
    split; reflexivity.
  - eexists. split; [reflexivity |]. split; reflexivity.
Qed.

(** *** Dragging a VPC *)

(** C8, as stated, fails: the stop handler returns at once for a VPC, so the
    position that the drag's moves wrote into the store stays. *)
Lemma vpc_drag_moves_position :
  exists c',
    dragGesture 10 "A" [PositionChange "A" (Some (mkXY 50 50)) None]
      (sampleCanvas [vpcA; subnetB]) = Normal c' /\
    findById (Some "A") (nodes (sampleState [vpcA; subnetB])) = Some vpcA /\
    typeIs vpcA "vpc" = true /\
    (exists after, findById (Some "A") (nodes (store c')) = Some after /\
                   position after = mkXY 50 50 /\
                   position after <> position vpcA).
Proof.
  eexists. split; [reflexivity |]. repeat split.
  eexists. split; [reflexivity |]. split; [reflexivity | discriminate].
Qed.

(** C8 (amended): in a complete drag of a VPC node neither handler writes
    the store: the stop handler returns before any hit test, commit or
    revert, and shows nothing.  The store after the drag is the store as the
    drag's moves left it; the node keeps its parent. *)
Theorem vpc_drag_gesture_commits_nothing depth nodeId moves c n0 :
  findById (Some nodeId) (nodes (store c)) = Some n0 ->
  typeIs n0 "vpc" = true ->
  exists c',
    dragGesture depth nodeId moves c = Normal c' /\
    store c' = onNodesChange moves (store c) /\
    alerts c' = alerts c /\
    (forall n1, findById (Some nodeId) (nodes (store c')) = Some n1 ->
                parentNode n1 = parentNode n0 /\ type n1 = type n0).
Proof.
  intros Hn0 Hvpc. unfold dragGesture. rewrite Hn0. canvas_simpl.
  assert (Hkeep : forall n1,
             findById (Some nodeId)
               (applyNodeChanges moves (nodes (store c))) = Some n1 ->
             parentNode n1 = parentNode n0 /\ type n1 = type n0).
  { intros n1 H1. apply findById_applyNodeChanges in H1
      as [m [Hm [_ [Et Ep]]]].
    rewrite Hn0 in Hm. injection Hm as <-. auto. }
  destruct (findById (Some nodeId) (applyNodeChanges moves (nodes (store c))))
    as [n1 |] eqn:Hn1.
  - destruct (Hkeep n1 eq_refl) as [_ Et].
    rewrite onNodeDragStop_vpc by (unfold typeIs in *; rewrite Et; exact Hvpc).
    eexists. split; [reflexivity |]. canvas_simpl.
    split; [reflexivity |]. split; [reflexivity |].
    intros n1' H. rewrite Hn1 in H. injection H as <-. apply Hkeep, eq_refl.
  - eexists. split; [reflexivity |]. canvas_simpl.
    split; [reflexivity |]. split; [reflexivity |].
    intros n1' H. rewrite Hn1 in H. discriminate.
Qed.

(** VPC [A] dragged by 50 pixels stays where the drag left it. *)
Lemma vpc_drag_gesture_commits_nothing_witness :
  exists c',
    dragGesture 10 "A" [PositionChange "A" (Some (mkXY 50 50)) None]
      (sampleCanvas [vpcA; subnetB]) = Normal c' /\
    store c' = onNodesChange [PositionChange "A" (Some (mkXY 50 50)) None]
                 (sampleState [vpcA; subnetB]).
Proof.
  destruct (vpc_drag_gesture_commits_nothing 10 "A"
              [PositionChange "A" (Some (mkXY 50 50)) None]
              (sampleCanvas [vpcA; subnetB]) vpcA eq_refl eq_refl)
    as [c' [H1 [H2 _]]].
  exists c'. split; [exact H1 | exact H2].
Defined.

(** *** Palette drop *)

Lemma In_insertByZ p n l : In p (insertByZ n l) -> p = n \/ In p l.
Proof.
  induction l as [| m l IH]; simpl.
  - intros [<- | []]. auto.
  - destruct (num_or (zIndex m) 0 <=? num_or (zIndex n) 0)%Z; simpl.
    + intros [<- | H]; auto.
    + intros [<- | H]; auto. destruct (IH H); auto.
Qed.

Lemma In_sortByZ p l : In p (sortByZ l) -> In p l.
Proof.
  induction l as [| n l IH]; simpl; [auto |].
  intros H. apply In_insertByZ in H as [-> | H]; auto.
Qed.

Lemma In_dropCandidates p ns : In p (dropCandidates ns) -> In p ns.
Proof.
  intros H. apply In_sortByZ in H. apply List.filter_In in H. tauto.
Qed.

Lemma dropHitTest_total depth ns t mousePos candidates :
  (forall p, In p candidates ->
             exists a, getAbsolutePosition depth ns (Some p) = Normal a) ->
  exists hit, dropHitTest depth ns t mousePos candidates = Normal hit.
Proof.
  induction candidates as [| p rest IH]; intros Hres; simpl; [eauto |].
  destruct (Hres p (or_introl eq_refl)) as [a ->]. simpl.
  destruct (pointInside mousePos a (boxWidth p 200) (boxHeight p 150)
            && dropPairing t p); [eauto |].
  apply IH. intros q Hq. apply Hres. right. exact Hq.
Qed.

Lemma defaultData_type t : defaultData t !! "type" = Some (VStr t).
Proof.
  unfold defaultData.
  repeat match goal with
         | |- context [if ?b then _ else _] => destruct b
         end;
    rewrite ?lookup_insert_ne by discriminate; apply lookup_insert_eq.
Qed.

Lemma placeIn_data n hit m : data (placeIn n hit m) = data n.
Proof. destruct hit as [[p pa] |]; reflexivity. Qed.

Lemma placeIn_type n hit m : type (placeIn n hit m) = type n.
Proof. destruct hit as [[p pa] |]; reflexivity. Qed.

(** The node a drop creates is always looked up under one of the five keys
    of the table. *)
Lemma lookupRule_dropped t mousePos stamp hit :
  exists r,
    lookupRule (nodeTypeOf (placeIn (newNodeOf t mousePos stamp) hit mousePos))
    = OwnRule r.
Proof.
  unfold nodeTypeOf, specificType. rewrite placeIn_data, placeIn_type.
  cbn [newNodeOf data type]. rewrite defaultData_type. cbn [isStr].
  destruct (String.eqb_spec t "vpc") as [-> | _]; [eexists; reflexivity |].
  destruct (String.eqb_spec t "subnet") as [-> | _]; [eexists; reflexivity |].
  destruct (String.eqb t "eks"); [eexists; reflexivity |].
  destruct (String.eqb t "eks-node-group"); eexists; reflexivity.
Qed.

Lemma validatePlacement_own node parent r :
  lookupRule (nodeTypeOf node) = OwnRule r ->
  exists v, validatePlacement node parent = Normal v.
Proof.
  intros H. unfold validatePlacement. rewrite H.
  repeat match goal with
         | |- context [if ?b then _ else _] => destruct b
         | |- context [match ?o with Some _ => _ | None => _ end] => destruct o
         end; eauto.
Qed.

Lemma onDrop_no_type depth mousePos stamp c :
  onDrop depth "" mousePos stamp c = Normal c.
Proof. reflexivity. Qed.

(** C5: a palette drop (a non-empty type, on a store whose parent chains
    resolve) builds the new node, hit-tests the drop point, runs the rules on
    the node and the container found, and then adds exactly that node when
    the verdict is valid and leaves the store untouched, showing the
    message, when it is not.  When no container takes the drop point, an
    [s3] drop is added without parent and an [ec2] drop adds nothing. *)
Theorem onDrop_adds_iff_placement_valid depth t mousePos stamp c :
  t <> "" ->
  resolves depth (nodes (store c)) ->
  exists newNode parent v c',
    dropPlacement depth (nodes (store c)) t mousePos stamp
      = Normal (newNode, parent) /\
    validatePlacement newNode parent = Normal v /\
    onDrop depth t mousePos stamp c = Normal c' /\
    (valid v = true ->
       nodes (store c') = nodes (store c) ++ [newNode] /\
       alerts c' = alerts c) /\
    (valid v = false ->
       store c' = store c /\ alerts c' = alerts c ++ [dropAlert v]) /\
    (dropHitTest depth (nodes (store c)) t mousePos
       (dropCandidates (nodes (store c))) = Normal None ->
     (t = "s3" -> valid v = true /\ parentNode newNode = None) /\
     (t = "ec2" -> valid v = false)).
Proof.
  intros Ht Hres.
  destruct (dropHitTest_total depth (nodes (store c)) t mousePos
              (dropCandidates (nodes (store c)))) as [hit Hhit].
  { intros p Hp. apply Hres. apply In_dropCandidates. exact Hp. }
  set (newNode := placeIn (newNodeOf t mousePos stamp) hit mousePos).
  set (parent := if truthy (parentNode newNode)
                 then findById (parentNode newNode) (nodes (store c))
                 else None).
  destruct (lookupRule_dropped t mousePos stamp hit) as [r Hr].
  destruct (validatePlacement_own newNode parent r Hr) as [v Hv].
  assert (Hplace : dropPlacement depth (nodes (store c)) t mousePos stamp
                   = Normal (newNode, parent)).
  { unfold dropPlacement. rewrite Hhit. reflexivity. }
  exists newNode, parent, v.
  assert (Hdrop : onDrop depth t mousePos stamp c =
                  Normal (if negb (valid v) then alert (dropAlert v) c
                          else withStore (addNode newNode (store c)) c)).
  { unfold onDrop. rewrite (proj2 (String.eqb_neq _ _) Ht), Hplace.
    cbn [bindC fst snd]. rewrite Hv. cbn [bindC].
    destruct (valid v); reflexivity. }
  rewrite Hdrop. eexists. split; [exact Hplace |]. split; [exact Hv |].
  split; [reflexivity |]. split; [| split].
  - intros ->. split; reflexivity.
  - intros ->. split; reflexivity.
  - intros Hnone. rewrite Hnone in Hhit. injection Hhit as <-. split.
    + intros ->. subst parent newNode. vm_compute in Hv.
      injection Hv as <-. split; reflexivity.
    + intros ->. subst parent newNode. vm_compute in Hv.
      injection Hv as <-. reflexivity.
Qed.

(** A bucket dropped on the empty canvas is added without parent. *)
Lemma onDrop_adds_iff_placement_valid_witness :
  exists newNode c',
    onDrop 10 "s3" (mkXY 40 40) "1700000000000" (sampleCanvas [])
      = Normal c' /\
    nodes (store c') = [newNode] /\
    id newNode = "s3-1700000000000" /\
    parentNode newNode = None.
Proof.
  assert (Hres : resolves 10 (nodes (store (sampleCanvas [])))).
  { intros p []. }
  destruct (onDrop_adds_iff_placement_valid 10 "s3" (mkXY 40 40)
              "1700000000000" (sampleCanvas []) ltac:(discriminate) Hres)
    as [newNode [parent [v [c' [Hp [Hv [Hd [Hadd [_ Hempty]]]]]]]]].
  destruct (Hempty eq_refl) as [Hs3 _].
  destruct (Hs3 eq_refl) as [Hvalid Hpar].
  exists newNode, c'. split; [exact Hd |].
  split; [exact (proj1 (Hadd Hvalid)) |]. split; [| exact Hpar].
  vm_compute in Hp. injection Hp as <- _. reflexivity.
Defined.

(** *** Reparenting *)

Lemma onNodeDragStop_valid depth node c nodeAbs newParent v :
  typeIs node "vpc" = false ->
  dragEvaluation depth node (nodes (store c)) = Normal (nodeAbs, newParent, v) ->
  valid v = true ->
  onNodeDragStop depth node c =
    match newParent with
    | Some p =>
        if negb (bool_decide (parentNode node = Some (id p))) then
          let* pAbs := getAbsolutePosition depth (nodes (store c)) (Some p) in
          Normal (setDragRef None
                    (withStore
                       (updateNode (id node)
                          (reparentPayload (Some (id p)) (subXY nodeAbs pAbs))
                          (store c)) c))
        else Normal (setDragRef None c)
    | None =>
        if truthy (parentNode node) then
          Normal (setDragRef None
                    (withStore
                       (updateNode (id node) (reparentPayload None nodeAbs)
                          (store c)) c))
        else Normal (setDragRef None c)
    end.
Proof.
  intros Hvpc Hev Hv. unfold onNodeDragStop. rewrite Hvpc.
  unfold dragEvaluation in Hev.
  destruct (getAbsolutePosition depth (nodes (store c)) (Some node))
    as [a |]; [| discriminate]. simpl in *.
  destruct (dragHitTest depth (nodes (store c)) node (nodeCenterOf node a)
              (dragCandidates (nodes (store c)) node))
    as [np |]; [| discriminate]. simpl in *.
  destruct (validatePlacement node np) as [v' |]; [| discriminate].
  simpl in *. injection Hev as -> -> ->. rewrite Hv. reflexivity.
Qed.




(** On doubles the subtraction does not always undo the addition.  An
    offset of 20.3 in a container at 10.1 comes back from the round trip as
    20.299999999999997, and a node at 197.1 whose offset from a container at
    38.3 is stored resolves to 197.10000000000002; on small integers both
    computations are exact.  (The literals are the doubles nearest to these
    decimals.) *)
Example round_trip_inexact_on_doubles :
  PrimFloat.eqb
    (offsetAfterRoundTrip 0x1.44ccccccccccdp+4 0x1.4333333333333p+3)
    0x1.44ccccccccccdp+4 = false /\
  PrimFloat.eqb
    (offsetAfterRoundTrip 0x1.44ccccccccccdp+4 0x1.4333333333333p+3)
    0x1.44cccccccccccp+4 = true /\
  PrimFloat.eqb
    (positionAfterReparent 0x1.8a33333333333p+7 0x1.3266666666666p+5)
    0x1.8a33333333333p+7 = false /\
  PrimFloat.eqb
    (positionAfterReparent 0x1.8a33333333333p+7 0x1.3266666666666p+5)
    0x1.8a33333333334p+7 = true /\
  PrimFloat.eqb (offsetAfterRoundTrip 20 10) 20 = true /\
  PrimFloat.eqb (positionAfterReparent 30 10) 30 = true.
Proof. repeat split; vm_compute; reflexivity. Qed.

(** The same round trip on the sample diagram, both gestures included:
    bucket [D], whose centre is inside [B], leaves [B] for the empty canvas
    and comes back to where it was. *)
Example round_trip_sample :
  exists c1 c2,
    dragGesture 10 "D" [PositionChange "D" (Some (mkXY 600 600)) None]
      (sampleCanvas [vpcA; subnetB; bucketD]) = Normal c1 /\
    findById (Some "D") (nodes (store c1))
      = Some (sampleNode "D" "service" "s3" (mkXY 610 610) None 50 50
                Z_LAYERS_resource) /\
    dragGesture 10 "D" [PositionChange "D" (Some (mkXY 30 30)) None] c1
      = Normal c2 /\
    nodes (store c2) = [vpcA; subnetB; bucketD].
Proof. do 2 eexists. repeat split; reflexivity. Qed.

(** ** Cost estimation *)

Lemma onNodeDragStop_cost depth node c c' :
  onNodeDragStop depth node c = Normal c' ->
  totalCost (store c') = totalCost (store c) /\
  costBreakdown (store c') = costBreakdown (store c).
Proof.
  unfold onNodeDragStop, bindC. intros H.
  break_match; simplify_eq; auto.
Qed.

Lemma onDrop_cost depth t mousePos stamp c c' :
  onDrop depth t mousePos stamp c = Normal c' ->
  totalCost (store c') = totalCost (store c) /\
  costBreakdown (store c') = costBreakdown (store c).
Proof.
  unfold onDrop, bindC. intros H.
  break_match; simplify_eq; auto.
Qed.

(** A handler that replaces the node collection leaves the cost figures. *)
Lemma handle_cost depth ev c :
  nodes_ref (store (handle depth ev c)) <> nodes_ref (store c) ->
  totalCost (store (handle depth ev c)) = totalCost (store c) /\
  costBreakdown (store (handle depth ev c)) = costBreakdown (store c).
Proof.
  destruct ev as [n1 | chs | n2 | t mousePos stamp | i pl | i d | | n3 | ms | tot brk |];
    simpl; intros Href; auto; try contradiction.
  - destruct (onNodeDragStop depth n2 c) as [c' |] eqn:E; simpl; auto.
    eapply onNodeDragStop_cost, E.
  - destruct (onDrop depth t mousePos stamp c) as [c' |] eqn:E; simpl; auto.
    eapply onDrop_cost, E.
Qed.

Lemma step_elapse_keeps_ref depth ms a :
  nodes_ref (store (canvas (step depth (EvElapse ms) a)))
  = nodes_ref (store (canvas a)).
Proof.
  unfold step. destruct (timer a) as [t |]; [| reflexivity].
  destruct (bool_decide (due t <= clock a + ms)); [| reflexivity].
  unfold timeoutCallback. destruct (captured t); reflexivity.
Qed.

(** Every state the application reaches holds an array that was allocated
    before the next one will be. *)
Lemma wfState_handle depth ev c :
  wfState (store c) -> wfState (store (handle depth ev c)).
Proof.
  intros Hwf.
  destruct ev as [n1 | chs | n2 | t mousePos stamp | i pl | i d | | n3 | ms | tot brk |];
    simpl; try (unfold wfState in *; simpl; lia).
  - destruct (onNodeDragStop depth n2 c) as [c' |] eqn:E; simpl; auto.
    revert E. unfold onNodeDragStop, bindC. intros E.
    break_match; simplify_eq; simpl; auto; apply wfState_setNodes.
  - destruct (onDrop depth t mousePos stamp c) as [c' |] eqn:E; simpl; auto.
    revert E. unfold onDrop, bindC. intros E.
    break_match; simplify_eq; simpl; auto; apply wfState_setNodes.
Qed.

Lemma wfState_step depth ev a :
  wfState (store (canvas a)) -> wfState (store (canvas (step depth ev a))).
Proof.
  intros Hwf.
  assert (Hh : forall e, wfState (store (canvas
                 (rerender (canvas a) (handle depth e (canvas a)) a)))).
  { intros e. unfold rerender.
    destruct (bool_decide _); simpl; apply wfState_handle, Hwf. }
  destruct ev; try apply Hh.
  unfold step. destruct (timer a) as [t |]; [| exact Hwf].
  destruct (bool_decide (due t <= clock a + ms)); [| exact Hwf].
  unfold timeoutCallback. destruct (captured t); simpl; auto.
Qed.

Lemma wfState_reachable depth evs :
  wfState (store (canvas (run depth evs mount))).
Proof.
  unfold run. generalize wfState_initial.
  change initialState with (store (canvas mount)).
  generalize mount. induction evs as [| ev evs IH]; intros a Hwf; simpl.
  - exact Hwf.
  - apply IH, wfState_step, Hwf.
Qed.

(** C6, as stated, fails: deleting the last node leaves the cost figures as
    they were, and they are still there 499 ms later; the reset is the work
    of the timeout callback. *)
Lemma empty_nodes_cost_kept_until_timeout :
  nodes (store (canvas pricedApp)) = [ec2C] /\
  nodes (store (canvas emptiedApp)) = [] /\
  totalCost (store (canvas emptiedApp)) = 42%Z /\
  costBreakdown (store (canvas emptiedApp)) = {["C" := 42%Z]} /\
  totalCost (store (canvas (step 10 (EvElapse 499) emptiedApp))) = 42%Z /\
  totalCost (store (canvas (step 10 (EvElapse 500) emptiedApp))) = 0%Z.
Proof. repeat split; reflexivity. Qed.

(** C6 (amended): a step that replaces the node collection by an empty one
    leaves the cost figures untouched and (re)starts the 500 ms timer; the
    figures stay as they were while less than 500 ms pass without another
    change, and when the timer fires they are reset to zero and the empty
    breakdown, without a request to the pricing service. *)
Theorem empty_nodes_reset_when_timer_fires depth ev a :
  nodes_ref (store (canvas (step depth ev a))) <> nodes_ref (store (canvas a)) ->
  nodes (store (canvas (step depth ev a))) = [] ->
  totalCost (store (canvas (step depth ev a))) = totalCost (store (canvas a)) /\
  costBreakdown (store (canvas (step depth ev a)))
    = costBreakdown (store (canvas a)) /\
  timer (step depth ev a)
    = Some {| due := clock a + debounce_ms; captured := [] |} /\
  forall ms,
    (ms < debounce_ms ->
       totalCost (store (canvas (step depth (EvElapse ms) (step depth ev a))))
         = totalCost (store (canvas a)) /\
       costBreakdown
           (store (canvas (step depth (EvElapse ms) (step depth ev a))))
         = costBreakdown (store (canvas a))) /\
    (debounce_ms <= ms ->
       totalCost (store (canvas (step depth (EvElapse ms) (step depth ev a))))
         = 0%Z /\
       costBreakdown
           (store (canvas (step depth (EvElapse ms) (step depth ev a))))
         = ∅ /\
       requests (step depth (EvElapse ms) (step depth ev a)) = requests a).
Proof.
  intros Href Hempty.
  assert (Hstep : step depth ev a
                  = runEffect {| canvas := handle depth ev (canvas a);
                                 clock := clock a; timer := timer a;
                                 requests := requests a |}).
  { destruct ev; try (unfold step, rerender;
                      rewrite bool_decide_eq_false_2; [reflexivity |];
                      intros E; apply Href; unfold step, rerender;
                      rewrite bool_decide_eq_true_2 by exact E; exact E).
    exfalso. apply Href. apply step_elapse_keeps_ref. }
  rewrite Hstep in *. cbn [runEffect canvas timer clock requests] in *.
  destruct (handle_cost depth ev (canvas a) Href) as [Htot Hbrk].
  rewrite Hempty. split; [exact Htot |]. split; [exact Hbrk |].
  split; [reflexivity |]. intros ms.
  unfold step. cbn [runEffect timer due clock canvas requests].
  rewrite Hempty. split; intros Hms.
  - rewrite bool_decide_eq_false_2 by lia. cbn [canvas]. auto.
  - rewrite bool_decide_eq_true_2 by lia.
    unfold timeoutCallback. cbn. auto.
Qed.

(** Deleting the only node: the figures are reset 500 ms later. *)
Lemma empty_nodes_reset_when_timer_fires_witness :
  totalCost (store (canvas emptiedApp)) = 42%Z /\
  totalCost (store (canvas (step 10 (EvElapse 500) emptiedApp))) = 0%Z.
Proof.
  destruct (empty_nodes_reset_when_timer_fires 10
              (EvNodesChange [RemoveChange "C"]) pricedApp
              ltac:(vm_compute; discriminate) eq_refl)
    as [H1 [_ [_ H4]]].
  split; [exact H1 |].
  exact (proj1 (proj2 (H4 500) ltac:(unfold debounce_ms; lia))).
Defined.

(** * Further properties of the code *)

(** ** Coordinate resolver: chains, dangling parents, cycles *)

(** X1: the resolved position of a node is the sum of the relative positions
    along its parent chain, the chain ending at the first node without
    parent or with a parent id that names no stored node, provided no node
    of the chain carries [positionAbsolute] and the stack has a frame for
    each node and one more. *)
Theorem getAbsolutePosition_sums_chain ns n l depth :
  Ancestors ns n l ->
  Forall (fun m => positionAbsolute m = None) l ->
  length l < depth ->
  getAbsolutePosition depth ns (Some n) = Normal (sumPositions l).
Proof.
  intros Hanc. revert depth.
  induction Hanc as [n Hlast | n p l Hfind Hanc IH]; intros depth Hall Hlen.
  - apply Forall_cons in Hall as [Hc _]. simpl in Hlen.
    destruct depth as [| [| d]]; try lia. simpl. rewrite Hc, Hlast.
    reflexivity.
  - apply Forall_cons in Hall as [Hc Hall]. simpl in Hlen.
    destruct depth as [| d]; [lia |]. simpl. rewrite Hc, Hfind.
    rewrite (IH d Hall ltac:(lia)). reflexivity.
Qed.

(** A dangling parent id: the node resolves to its own offset. *)
Lemma getAbsolutePosition_sums_chain_witness :
  getAbsolutePosition 2 [vpcA; orphanedN] (Some orphanedN)
    = Normal (mkXY 33 44) /\
  getAbsolutePosition 4 [vpcA; subnetB; ec2C] (Some ec2C)
    = Normal (mkXY 30 30).
Proof.
  split.
  - apply (getAbsolutePosition_sums_chain [vpcA; orphanedN] orphanedN
             [orphanedN] 2).
    + apply ancestors_last. reflexivity.
    + repeat constructor.
    + simpl. lia.
  - apply (getAbsolutePosition_sums_chain [vpcA; subnetB; ec2C] ec2C
             [ec2C; subnetB; vpcA] 4).
    + eapply ancestors_step; [reflexivity |].
      eapply ancestors_step; [reflexivity |].
      apply ancestors_last. reflexivity.
    + repeat constructor.
    + simpl. lia.
Defined.

(** X2: on a parent chain that never ends (it runs into a cycle) and has no
    cached position, the resolver throws [RangeError], however deep the
    stack: there is no cycle guard. *)
Theorem getAbsolutePosition_cycle_overflows ns (S : Node -> Prop) :
  ParentClosed ns S ->
  forall depth n, S n ->
    getAbsolutePosition depth ns (Some n) = Throw RangeError.
Proof.
  intros Hclosed. induction depth as [| d IH]; intros n Hn; [reflexivity |].
  destruct (Hclosed n Hn) as [Hc [p [Hfind Hp]]].
  simpl. rewrite Hc, Hfind, (IH p Hp). reflexivity.
Qed.

Lemma getAbsolutePosition_cycle_overflows_witness :
  getAbsolutePosition 1000 [loopL; loopM] (Some loopL) = Throw RangeError.
Proof.
  apply (getAbsolutePosition_cycle_overflows [loopL; loopM]
           (fun n => n = loopL \/ n = loopM)).
  - intros n [-> | ->]; (split; [reflexivity |]).
    + exists loopM. split; [reflexivity | right; reflexivity].
    + exists loopL. split; [reflexivity | left; reflexivity].
  - left. reflexivity.
Defined.
(** ** Candidate order and the hit test *)

Lemma insertByZ_perm n l : insertByZ n l ≡ₚ n :: l.
Proof.
  induction l as [| m l IH]; simpl; [reflexivity |].
  destruct (num_or (zIndex m) 0 <=? num_or (zIndex n) 0)%Z; [reflexivity |].
  rewrite IH. apply Permutation_swap.
Qed.

Lemma sortByZ_perm l : sortByZ l ≡ₚ l.
Proof.
  induction l as [| n l IH]; simpl; [reflexivity |].
  rewrite insertByZ_perm, IH. reflexivity.
Qed.

Lemma insertByZ_sorted n l :
  StronglySorted byZDesc l -> StronglySorted byZDesc (insertByZ n l).
Proof.
  induction l as [| m l IH]; intros Hs; simpl.
  - repeat constructor.
  - apply StronglySorted_cons in Hs as [Hm Hs].
    destruct (Z.leb_spec (num_or (zIndex m) 0) (num_or (zIndex n) 0)) as [Hle | Hgt].
    + apply StronglySorted_cons. split.
      * constructor; [exact Hle |].
        eapply Forall_impl; [exact Hm |]. unfold byZDesc, zkey in *.
        intros x Hx. lia.
      * apply StronglySorted_cons. auto.
    + apply StronglySorted_cons. split; [| auto].
      rewrite insertByZ_perm. constructor; [| exact Hm].
      unfold byZDesc, zkey. lia.
Qed.

Lemma insertByZ_stable n l k :
  filter (fun x => zkey x = k) (insertByZ n l)
  = filter (fun x => zkey x = k) (n :: l).
Proof.
  induction l as [| m l IH]; simpl; [reflexivity |].
  destruct (Z.leb_spec (num_or (zIndex m) 0) (num_or (zIndex n) 0)) as [Hle | Hgt];
    [reflexivity |].
  rewrite (filter_cons _ m), IH, !filter_cons.
  fold (zkey m) in *. fold (zkey n) in *.
  destruct (decide (zkey m = k)), (decide (zkey n = k)); try reflexivity.
  lia.
Qed.

Lemma sortByZ_sorted l : StronglySorted byZDesc (sortByZ l).
Proof.
  induction l as [| n l IH]; simpl; [constructor |].
  apply insertByZ_sorted, IH.
Qed.

(** X3: the order in which containers are hit-tested is a stable sort by
    descending z-index: the same nodes, higher [zIndex || 0] first, and
    nodes of equal z-index in their store order. *)
Theorem sortByZ_stable_descending l :
  sortByZ l ≡ₚ l /\
  StronglySorted byZDesc (sortByZ l) /\
  forall k, filter (fun x => zkey x = k) (sortByZ l)
            = filter (fun x => zkey x = k) l.
Proof.
  split; [apply sortByZ_perm |]. split; [apply sortByZ_sorted |].
  intros k. induction l as [| n l IH]; simpl; [reflexivity |].
  rewrite insertByZ_stable, !filter_cons, IH. reflexivity.
Qed.

(** The loop returns the first candidate that passes the test. *)
Lemma dragHitTest_first depth ns node c candidates r :
  dragHitTest depth ns node c candidates = Normal r ->
  match r with
  | Some p =>
      exists before after pAbs,
        candidates = before ++ p :: after /\
        getAbsolutePosition depth ns (Some p) = Normal pAbs /\
        centerInside c pAbs (boxWidth p 0) (boxHeight p 0) = true /\
        dragPairing node p = true /\
        Forall (dragRejects depth ns node c) before
  | None => Forall (dragRejects depth ns node c) candidates
  end.
Proof.
  revert r. induction candidates as [| q rest IH]; intros r H; simpl in H.
  - injection H as <-. constructor.
  - destruct (getAbsolutePosition depth ns (Some q)) as [a |] eqn:Ea;
      [| discriminate]. simpl in H.
    destruct (centerInside c a (boxWidth q 0) (boxHeight q 0)
              && dragPairing node q) eqn:Et.
    + injection H as <-. apply andb_true_iff in Et as [E1 E2].
      exists [], rest, a. repeat split; auto.
    + assert (Hq : dragRejects depth ns node c q).
      { intros a' Ha'. rewrite Ea in Ha'. injection Ha' as <-. exact Et. }
      specialize (IH r H). destruct r as [p |].
      * destruct IH as [before [after [pAbs [-> [H1 [H2 [H3 H4]]]]]]].
        exists (q :: before), after, pAbs. repeat split; auto.
      * constructor; auto.
Qed.

(** X4: the container chosen at drag-stop is a stored container other than
    the dragged node, it contains the node's centre and the loop's pairing
    accepts it, and no stored container of higher z-index does both; when
    none is chosen, no stored container does both. *)
Theorem dragHitTest_picks_topmost_match depth ns node c r :
  dragHitTest depth ns node c (dragCandidates ns node) = Normal r ->
  match r with
  | Some p =>
      In p ns /\ isContainerNode p = true /\ id p <> id node /\
      dragPairing node p = true /\
      (exists pAbs,
          getAbsolutePosition depth ns (Some p) = Normal pAbs /\
          centerInside c pAbs (boxWidth p 0) (boxHeight p 0) = true) /\
      forall q, In q ns -> isContainerNode q = true -> id q <> id node ->
                (zkey p < zkey q)%Z -> dragRejects depth ns node c q
  | None =>
      forall q, In q ns -> isContainerNode q = true -> id q <> id node ->
                dragRejects depth ns node c q
  end.
Proof.
  intros H. apply dragHitTest_first in H.
  assert (Hcand : forall q, q ∈ dragCandidates ns node <->
            In q ns /\ isContainerNode q = true /\ id q <> id node).
  { intros q. unfold dragCandidates. rewrite sortByZ_perm.
    rewrite list_elem_of_In, List.filter_In, andb_true_iff, negb_true_iff,
      String.eqb_neq. tauto. }
  destruct r as [p |].
  - destruct H as [before [after [pAbs [Hsplit [Ha [Hin [Hpair Hrej]]]]]]].
    assert (Hp : p ∈ dragCandidates ns node).
    { rewrite Hsplit, elem_of_app, elem_of_cons. auto. }
    apply Hcand in Hp as [Hp1 [Hp2 Hp3]].
    repeat split; auto; [eauto |].
    intros q Hq1 Hq2 Hq3 Hz.
    assert (Hq : q ∈ dragCandidates ns node) by (apply Hcand; auto).
    pose proof (sortByZ_sorted
                  (List.filter
                     (fun n => isContainerNode n
                               && negb (String.eqb (id n) (id node))) ns))
      as Hs.
    fold (dragCandidates ns node) in Hs. rewrite Hsplit in Hs, Hq.
    apply elem_of_app in Hq as [Hq | Hq].
    + rewrite Forall_forall in Hrej. apply Hrej, Hq.
    + exfalso. apply StronglySorted_app_1_r in Hs.
      apply StronglySorted_cons in Hs as [Hafter _].
      apply elem_of_cons in Hq as [-> | Hq]; [lia |].
      rewrite Forall_forall in Hafter. specialize (Hafter q Hq).
      unfold byZDesc in Hafter. lia.
  - intros q Hq1 Hq2 Hq3. rewrite Forall_forall in H. apply H, Hcand. auto.
Qed.

(** Instance [C] over the sample: its centre is in subnet [B] and VPC [A];
    the subnet, which has the higher z-index, is chosen. *)
Lemma dragHitTest_picks_topmost_match_witness :
  In subnetB [vpcA; subnetB; ec2C] /\
  dragPairing ec2C subnetB = true /\
  id subnetB <> id ec2C.
Proof.
  pose proof (dragHitTest_picks_topmost_match 10 [vpcA; subnetB; ec2C] ec2C
                (nodeCenterOf ec2C (mkXY 30 30)) (Some subnetB) eq_refl)
    as [H1 [_ [H3 [H4 _]]]].
  split; [exact H1 |]. split; [exact H4 | exact H3].
Defined.

(** ** The decision table of the placement rules *)

Lemma RULES_mustHaveParent k r :
  RULES !! k = Some r -> mustHaveParent r = negb (String.eqb k "vpc").
Proof.
  unfold RULES. intros H.
  repeat (rewrite lookup_insert in H; case_decide;
          [ simplify_eq; reflexivity | ]).
  rewrite lookup_empty in H. discriminate.
Qed.

(** The rule applied to a child that is not exempt. *)
Lemma validatePlacement_by_rule node parent r :
  RULES !! nodeTypeOf node = Some r ->
  isStr (specificType node) "s3" = false ->
  validatePlacement node parent =
    Normal (if mustHaveParent r && negb (isSome parent) then rejected r
            else match parent with
                 | Some p =>
                     if negb (includesStr (allowedParents r) (type p))
                     then rejected r else okVerdict
                 | None => okVerdict
                 end).
Proof.
  intros Hr Hs3. unfold validatePlacement, lookupRule. rewrite Hr.
  assert (Hex : match exceptions r with
                | Some ex => includesVal ex (specificType node)
                | None => false
                end = false).
  { destruct (RULES_lookup_inv _ _ Hr) as [-> | [_ ->]]; [reflexivity |].
    simpl. rewrite Hs3. reflexivity. }
  rewrite Hex.
  destruct (mustHaveParent r && negb (isSome parent)); [reflexivity |].
  destruct parent as [p |]; [| reflexivity].
  destruct (negb (includesStr (allowedParents r) (type p))); reflexivity.
Qed.

(** X5: for a child whose lookup key has a rule and whose kind is not the
    exempted [s3]: without a candidate parent it is accepted only under the
    key [vpc]; with one it is accepted exactly when the parent's type is
    among the rule's [allowedParents]; every rejection carries the rule's
    message. *)
Theorem validatePlacement_table node parent r :
  RULES !! nodeTypeOf node = Some r ->
  isStr (specificType node) "s3" = false ->
  validatePlacement node parent =
    Normal match parent with
           | None =>
               if String.eqb (nodeTypeOf node) "vpc" then okVerdict
               else rejected r
           | Some p =>
               if includesStr (allowedParents r) (type p) then okVerdict
               else rejected r
           end.
Proof.
  intros Hr Hs3. rewrite (validatePlacement_by_rule node parent r Hr Hs3).
  rewrite (RULES_mustHaveParent _ _ Hr). destruct parent as [p |]; simpl.
  - rewrite andb_false_r.
    destruct (includesStr (allowedParents r) (type p)); reflexivity.
  - rewrite andb_true_r.
    destruct (String.eqb (nodeTypeOf node) "vpc"); reflexivity.
Qed.

(** A subnet on the bare canvas is rejected; inside the VPC it is accepted. *)
Lemma validatePlacement_table_witness :
  validatePlacement subnetB None
    = Normal {| valid := false;
                message := Some "Subnets must be placed inside a VPC." |} /\
  validatePlacement subnetB (Some vpcA) = Normal okVerdict.
Proof.
  split.
  - exact (validatePlacement_table subnetB None
             {| allowedParents := ["vpc"]; mustHaveParent := true;
                exceptions := None;
                errorMessage := "Subnets must be placed inside a VPC." |}
             eq_refl eq_refl).
  - exact (validatePlacement_table subnetB (Some vpcA)
             {| allowedParents := ["vpc"]; mustHaveParent := true;
                exceptions := None;
                errorMessage := "Subnets must be placed inside a VPC." |}
             eq_refl eq_refl).
Defined.

(** ** The loop's pairings and the rules *)

Lemma typeIs_true n t : typeIs n t = true <-> type n = Some t.
Proof.
  unfold typeIs. destruct (type n) as [s |]; [| split; discriminate].
  rewrite String.eqb_eq. split; congruence.
Qed.

(** X6: when a node's [type] is the key under which its rule is looked up,
    every container the drag-stop loop pairs it with is accepted by the
    rules: the loop and the table agree. *)
Theorem dragPairing_accepted_by_rules node p :
  type node = Some (nodeTypeOf node) ->
  dragPairing node p = true ->
  validatePlacement node (Some p) = Normal okVerdict.
Proof.
  intros Hkey Hpair. unfold dragPairing in Hpair.
  assert (Hcase :
    (nodeTypeOf node = "service" /\ type p = Some "subnet") \/
    (nodeTypeOf node = "subnet" /\ type p = Some "vpc") \/
    (nodeTypeOf node = "eks" /\ type p = Some "subnet") \/
    (nodeTypeOf node = "eks-node-group" /\ type p = Some "eks")).
  { repeat (apply orb_true_iff in Hpair as [Hpair | Hpair]);
      apply andb_true_iff in Hpair as [H1 H2];
      apply typeIs_true in H1; apply typeIs_true in H2;
      rewrite Hkey in H1; injection H1 as H1; auto. }
  unfold validatePlacement.
  destruct Hcase as [[-> Hp] | [[-> Hp] | [[-> Hp] | [-> Hp]]]];
    match goal with
    | |- context [lookupRule ?k] =>
        let l := eval vm_compute in (lookupRule k) in
        change (lookupRule k) with l
    end;
    cbn -[includesVal]; rewrite ?Hp;
    try destruct (includesVal ["s3"] (specificType node)); reflexivity.
Qed.

Lemma dragPairing_accepted_by_rules_witness :
  validatePlacement ec2C (Some subnetB) = Normal okVerdict.
Proof.
  exact (dragPairing_accepted_by_rules ec2C subnetB eq_refl eq_refl).
Defined.

(** X7: a node group as the palette creates it ([type] [service],
    [data.type] [eks-node-group]) cannot be moved by dragging: the loop pairs
    a [service] node only with subnets, the rules want an EKS cluster, so
    every drag-stop on it is rejected with the node-group message. *)
Theorem dropped_node_group_drag_rejected depth node ns nodeAbs newParent v :
  type node = Some "service" ->
  specificType node = Some (VStr "eks-node-group") ->
  dragEvaluation depth node ns = Normal (nodeAbs, newParent, v) ->
  v = {| valid := false;
         message := Some "Node groups must be placed inside an EKS cluster." |}.
Proof.
  intros Htype Hkind Hev. unfold dragEvaluation in Hev.
  destruct (getAbsolutePosition depth ns (Some node)) as [a |];
    [| discriminate]. simpl in Hev.
  destruct (dragHitTest depth ns node (nodeCenterOf node a)
              (dragCandidates ns node)) as [np |] eqn:Hhit;
    [| discriminate]. simpl in Hev.
  assert (Hnp : match np with
                | Some p => type p = Some "subnet"
                | None => True
                end).
  { apply dragHitTest_first in Hhit. destruct np as [p |]; [| exact I].
    destruct Hhit as [_ [_ [_ [_ [_ [_ [Hpair _]]]]]]].
    unfold dragPairing, typeIs in Hpair. rewrite Htype in Hpair.
    simpl in Hpair. rewrite !orb_false_r in Hpair.
    destruct (type p) as [s |]; [| discriminate].
    apply String.eqb_eq in Hpair. congruence. }
  assert (Hval : validatePlacement node np
                 = Normal {| valid := false;
                             message := Some "Node groups must be placed inside an EKS cluster." |}).
  { unfold validatePlacement, nodeTypeOf. rewrite Hkind.
    destruct np as [p |]; [rewrite Hnp |]; reflexivity. }
  rewrite Hval in Hev. simpl in Hev. congruence.
Qed.

(** Node group [R] dragged a few pixels inside its own cluster. *)
Lemma dropped_node_group_drag_rejected_witness :
  exists nodeAbs newParent v,
    dragEvaluation 10 nodeGroupR [vpcA; subnetB; clusterP; nodeGroupR]
      = Normal (nodeAbs, newParent, v) /\
    newParent = Some subnetB /\
    v = {| valid := false;
           message :=
             Some "Node groups must be placed inside an EKS cluster." |}.
Proof.
  exists (mkXY 40 40), (Some subnetB),
    {| valid := false;
       message := Some "Node groups must be placed inside an EKS cluster." |}.
  assert (H : dragEvaluation 10 nodeGroupR
                [vpcA; subnetB; clusterP; nodeGroupR]
              = Normal (mkXY 40 40, Some subnetB,
                        {| valid := false;
                           message :=
                             Some "Node groups must be placed inside an EKS cluster." |}))
    by reflexivity.
  split; [exact H |]. split; [reflexivity |].
  exact (dropped_node_group_drag_rejected 10 nodeGroupR _ _ _ _
           eq_refl eq_refl H).
Defined.

(** ** Commits: the offset that is stored and how the node resolves *)

Lemma findById_map_update (f : Node -> Node) k key ns :
  (forall n, id (f n) = id n) ->
  findById key
    (map (fun n => if String.eqb (id n) k then f n else n) ns)
  = (fun n => if String.eqb (id n) k then f n else n) <$> findById key ns.
Proof.
  intros Hid. destruct key as [key |]; [| reflexivity].
  apply find_map_same_id. intros n.
  destruct (String.eqb (id n) k); auto.
Qed.

(** Rewriting the nodes of id [k] does not change how a node resolves whose
    chain avoids [k]. *)
Lemma getAbsolutePosition_update_avoids (f : Node -> Node) k ns :
  (forall n, id (f n) = id n) ->
  forall depth q,
    AvoidsNode ns k q ->
    getAbsolutePosition depth
      (map (fun n => if String.eqb (id n) k then f n else n) ns) (Some q)
    = getAbsolutePosition depth ns (Some q).
Proof.
  intros Hid. induction depth as [| d IH]; intros q Hq; [reflexivity |].
  simpl. destruct (positionAbsolute q) as [cached |] eqn:Hc; [reflexivity |].
  rewrite findById_map_update by exact Hid.
  inversion Hq as [q' _ Hcached | q' _ Hlast | q' p _ Hfind Hp]; subst.
  - congruence.
  - rewrite Hlast. simpl. destruct d; reflexivity.
  - rewrite Hfind. simpl.
    assert (Hpk : String.eqb (id p) k = false).
    { inversion Hp; subst; apply String.eqb_neq; assumption. }
    rewrite Hpk, (IH p Hp). reflexivity.
Qed.

(** X8: when a valid drag-stop finds no container for a node that had a
    parent, the commit clears the parent and stores the node's absolute
    position as its offset: every stored node with that id has no parent
    afterwards and, unless it carries a cached position, resolves to the
    position the dragged node had. *)
Theorem orphan_commit_keeps_absolute_position depth node c nodeAbs v :
  typeIs node "vpc" = false ->
  dragEvaluation depth node (nodes (store c)) = Normal (nodeAbs, None, v) ->
  valid v = true ->
  truthy (parentNode node) = true ->
  getAbsolutePosition depth (nodes (store c)) (Some node) = Normal nodeAbs /\
  exists c',
    onNodeDragStop depth node c = Normal c' /\
    alerts c' = alerts c /\ dragRef c' = None /\
    forall m, In m (nodes (store c')) -> id m = id node ->
      parentNode m = None /\ position m = nodeAbs /\
      (positionAbsolute m = None ->
       forall d, 2 <= d ->
         getAbsolutePosition d (nodes (store c')) (Some m) = Normal nodeAbs).
Proof.
  intros Hvpc Hev Hv Hpar. split.
  { unfold dragEvaluation in Hev.
    destruct (getAbsolutePosition depth (nodes (store c)) (Some node))
      as [a |]; [| discriminate]. simpl in Hev.
    destruct (dragHitTest depth (nodes (store c)) node (nodeCenterOf node a)
                (dragCandidates (nodes (store c)) node)) as [np |];
      [| discriminate]. simpl in Hev.
    destruct (validatePlacement node np); [| discriminate].
    simpl in Hev. congruence. }
  rewrite (onNodeDragStop_valid _ _ _ _ _ _ Hvpc Hev Hv), Hpar.
  eexists. split; [reflexivity |]. canvas_simpl.
  split; [reflexivity |]. split; [reflexivity |].
  intros m Hm Hid. apply in_map_iff in Hm as [m0 [Hm0 _]].
  destruct (String.eqb_spec (id m0) (id node)) as [E | E];
    [| subst m; contradiction].
  subst m. cbn [spread reparentPayload parentNode position positionAbsolute
                p_parentNode p_position p_positionAbsolute default].
  split; [reflexivity |]. split; [reflexivity |].
  intros Hc d Hd. destruct d as [| [| d]]; try lia.
  cbn [getAbsolutePosition spread reparentPayload parentNode position
       positionAbsolute p_parentNode p_position p_positionAbsolute default].
  rewrite Hc. simpl. rewrite addXY_origin. reflexivity.
Qed.

(** Bucket [D], dragged from subnet [B] onto the empty canvas. *)
Lemma orphan_commit_keeps_absolute_position_witness :
  exists c',
    onNodeDragStop 10 strayD (sampleCanvas [vpcA; subnetB; strayD])
      = Normal c' /\
    nodes (store c')
      = [vpcA; subnetB;
         sampleNode "D" "service" "s3" (mkXY 610 610) None 50 50
           Z_LAYERS_resource].
Proof.
  destruct (orphan_commit_keeps_absolute_position 10 strayD
              (sampleCanvas [vpcA; subnetB; strayD]) (mkXY 610 610) okVerdict
              eq_refl eq_refl eq_refl eq_refl)
    as [_ [c' [H1 _]]].
  exists c'. split; [exact H1 |].
  vm_compute in H1. injection H1 as <-. reflexivity.
Defined.

(** X9: a valid drag-stop that moves a node into a new container [P] stores
    the node's absolute position minus the absolute position of [P] as its
    offset.  Provided [P] is the node its id names and resolving [P] does
    not pass through the dragged node, [P] resolves afterwards as before,
    every stored node with the dragged id is a child of [P] with that offset
    and, unless it carries a cached position, resolves to the offset plus
    the position of [P]: [(nodeAbs - pAbs) + pAbs], computed in that
    order. *)
Theorem reparent_commit_stores_offset_from_container
    depth node c nodeAbs P v :
  typeIs node "vpc" = false ->
  dragEvaluation depth node (nodes (store c)) = Normal (nodeAbs, Some P, v) ->
  valid v = true ->
  parentNode node <> Some (id P) ->
  findById (Some (id P)) (nodes (store c)) = Some P ->
  AvoidsNode (nodes (store c)) (id node) P ->
  exists c' pAbs,
    getAbsolutePosition depth (nodes (store c)) (Some P) = Normal pAbs /\
    onNodeDragStop depth node c = Normal c' /\
    alerts c' = alerts c /\ dragRef c' = None /\
    findById (Some (id P)) (nodes (store c')) = Some P /\
    getAbsolutePosition depth (nodes (store c')) (Some P) = Normal pAbs /\
    forall m, In m (nodes (store c')) -> id m = id node ->
      parentNode m = Some (id P) /\
      position m = subXY nodeAbs pAbs /\
      (positionAbsolute m = None ->
       getAbsolutePosition (S depth) (nodes (store c')) (Some m)
       = Normal (addXY (subXY nodeAbs pAbs) pAbs)).
Proof.
  intros Hvpc Hev Hv Hout HfindP Havoid.
  assert (HP : exists pAbs,
             getAbsolutePosition depth (nodes (store c)) (Some P)
             = Normal pAbs).
  { unfold dragEvaluation in Hev.
    destruct (getAbsolutePosition depth (nodes (store c)) (Some node))
      as [a |]; [| discriminate]. simpl in Hev.
    destruct (dragHitTest depth (nodes (store c)) node (nodeCenterOf node a)
                (dragCandidates (nodes (store c)) node)) as [np |] eqn:Hhit;
      [| discriminate]. simpl in Hev.
    destruct (validatePlacement node np); [| discriminate].
    simpl in Hev. injection Hev as _ -> _.
    apply dragHitTest_first in Hhit
      as [_ [_ [pAbs [_ [Ha _]]]]]. eauto. }
  destruct HP as [pAbs HpAbs].
  assert (HPk : String.eqb (id P) (id node) = false).
  { inversion Havoid; subst; apply String.eqb_neq; assumption. }
  rewrite (onNodeDragStop_valid _ _ _ _ _ _ Hvpc Hev Hv).
  rewrite bool_decide_eq_false_2 by exact Hout. cbn [negb].
  rewrite HpAbs. cbn [bindC].
  eexists. exists pAbs. split; [reflexivity |]. split; [reflexivity |].
  canvas_simpl. split; [reflexivity |]. split; [reflexivity |].
  assert (HfindP' :
            findById (Some (id P))
              (map (fun n => if String.eqb (id n) (id node)
                             then spread n
                                    (reparentPayload (Some (id P))
                                       (subXY nodeAbs pAbs))
                             else n) (nodes (store c)))
            = Some P).
  { rewrite (findById_map_update
               (fun n => spread n
                           (reparentPayload (Some (id P))
                              (subXY nodeAbs pAbs)))
               (id node) (Some (id P)) (nodes (store c)))
      by reflexivity.
    rewrite HfindP. cbn [fmap option_fmap option_map].
    rewrite HPk. reflexivity. }
  assert (HpAbs' :
            getAbsolutePosition depth
              (map (fun n => if String.eqb (id n) (id node)
                             then spread n
                                    (reparentPayload (Some (id P))
                                       (subXY nodeAbs pAbs))
                             else n) (nodes (store c))) (Some P)
            = Normal pAbs).
  { rewrite (getAbsolutePosition_update_avoids
               (fun n => spread n
                           (reparentPayload (Some (id P))
                              (subXY nodeAbs pAbs)))
               (id node) (nodes (store c)) ltac:(reflexivity) depth P Havoid).
    exact HpAbs. }
  split; [exact HfindP' |]. split; [exact HpAbs' |].
  intros m Hm Hid. apply in_map_iff in Hm as [m0 [Hm0 _]].
  destruct (String.eqb_spec (id m0) (id node)) as [E | E];
    [| subst m; contradiction].
  subst m. cbn [spread reparentPayload parentNode position positionAbsolute
                p_parentNode p_position p_positionAbsolute default].
  split; [reflexivity |]. split; [reflexivity |]. intros Hc.
  cbn [getAbsolutePosition spread reparentPayload parentNode position
       positionAbsolute p_parentNode p_position p_positionAbsolute default].
  rewrite Hc. unfold Datatypes.id.
  rewrite HfindP', HpAbs'. reflexivity.
Qed.

(** Instance [C], dragged from subnet [B] into subnet [S]. *)
Lemma reparent_commit_stores_offset_from_container_witness :
  exists c',
    onNodeDragStop 10 draggedC
      (sampleCanvas [vpcA; subnetB; subnetS; draggedC]) = Normal c' /\
    nodes (store c')
      = [vpcA; subnetB; subnetS;
         sampleNode "C" "service" "ec2" (mkXY 40 40) (Some "S") 50 50
           Z_LAYERS_resource].
Proof.
  assert (Hav : AvoidsNode [vpcA; subnetB; subnetS; draggedC] "C" subnetS).
  { eapply avoids_step; [discriminate | reflexivity |].
    apply avoids_last; [discriminate | reflexivity]. }
  destruct (reparent_commit_stores_offset_from_container 10 draggedC
              (sampleCanvas [vpcA; subnetB; subnetS; draggedC])
              (mkXY 310 50) subnetS okVerdict
              eq_refl eq_refl eq_refl ltac:(discriminate) eq_refl Hav)
    as [c' [pAbs [_ [H1 _]]]].
  exists c'. split; [exact H1 |].
  vm_compute in H1. injection H1 as <-. reflexivity.
Defined.

(** ** Palette drops: where the node lands and which drops are kept *)

Lemma findById_app_other key ns x :
  key <> Some (id x) ->
  findById key (ns ++ [x]) = findById key ns.
Proof.
  destruct key as [k |]; [| reflexivity]. intros Hne. simpl.
  induction ns as [| n ns IH]; simpl.
  - destruct (String.eqb_spec (id x) k) as [E | _]; [congruence | reflexivity].
  - destruct (String.eqb (id n) k); [reflexivity | exact IH].
Qed.

Lemma findById_app_found key ns x p :
  findById key ns = Some p -> findById key (ns ++ [x]) = Some p.
Proof.
  destruct key as [k |]; [| discriminate]. simpl.
  induction ns as [| n ns IH]; simpl; [discriminate |].
  destruct (String.eqb (id n) k); auto.
Qed.

(** Appending a node that nobody names as parent does not change how the
    stored nodes resolve. *)
Lemma getAbsolutePosition_app ns x :
  (forall m, In m ns -> parentNode m <> Some (id x)) ->
  forall depth q, In q ns ->
    getAbsolutePosition depth (ns ++ [x]) (Some q)
    = getAbsolutePosition depth ns (Some q).
Proof.
  intros Hfresh. induction depth as [| d IH]; intros q Hq; [reflexivity |].
  simpl. destruct (positionAbsolute q); [reflexivity |].
  rewrite findById_app_other by (apply Hfresh, Hq).
  destruct (findById (parentNode q) ns) as [p |] eqn:Hfind.
  - rewrite IH; [reflexivity |].
    destruct (parentNode q) as [k |]; [| discriminate].
    apply findById_In in Hfind. tauto.
  - destruct d; reflexivity.
Qed.

Lemma findById_self ns p :
  NoDup (map id ns) -> In p ns -> findById (Some (id p)) ns = Some p.
Proof.
  intros Hnd Hin.
  destruct (findById (Some (id p)) ns) as [q |] eqn:Hfind.
  - f_equal. symmetry. eapply findById_unique; eauto.
  - exfalso. simpl in Hfind.
    apply (List.find_none _ _ Hfind) in Hin.
    rewrite String.eqb_refl in Hin. discriminate.
Qed.

Lemma dropHitTest_found depth ns t mousePos candidates p pAbs :
  dropHitTest depth ns t mousePos candidates = Normal (Some (p, pAbs)) ->
  In p candidates /\
  getAbsolutePosition depth ns (Some p) = Normal pAbs /\
  pointInside mousePos pAbs (boxWidth p 200) (boxHeight p 150) = true /\
  dropPairing t p = true.
Proof.
  induction candidates as [| q rest IH]; intros H; simpl in H;
    [discriminate |].
  destruct (getAbsolutePosition depth ns (Some q)) as [a |] eqn:Ea;
    [| discriminate]. simpl in H.
  destruct (pointInside mousePos a (boxWidth q 200) (boxHeight q 150)
            && dropPairing t q) eqn:Et.
  - injection H as -> ->. apply andb_true_iff in Et as [E1 E2].
    repeat split; auto. left. reflexivity.
  - destruct (IH H) as [H1 H2]. split; [right; exact H1 | exact H2].
Qed.

(** What [onDrop] does once the type is known to be non-empty. *)
Lemma onDrop_unfold depth t mousePos stamp c hit :
  t <> "" ->
  dropHitTest depth (nodes (store c)) t mousePos
    (dropCandidates (nodes (store c))) = Normal hit ->
  onDrop depth t mousePos stamp c =
    let newNode := placeIn (newNodeOf t mousePos stamp) hit mousePos in
    let* validation :=
      validatePlacement newNode
        (if truthy (parentNode newNode)
         then findById (parentNode newNode) (nodes (store c)) else None) in
    if negb (valid validation)
    then Normal (alert (dropAlert validation) c)
    else Normal (withStore (addNode newNode (store c)) c).
Proof.
  intros Ht Hhit. unfold onDrop, dropPlacement.
  rewrite (proj2 (String.eqb_neq _ _) Ht), Hhit. reflexivity.
Qed.

Lemma alert_changes_alerts msg c : alerts (alert msg c) <> alerts c.
Proof.
  simpl. intros H. apply (f_equal length) in H.
  rewrite length_app in H. simpl in H. lia.
Qed.

(** X10: a drop that is kept appends one node under the new id.  On the
    bare canvas the node has no parent and its position is the drop point,
    to which it resolves.  In a container [P] at [pAbs] it is a child of
    [P], its position is the drop point minus [pAbs], [P] resolves as
    before and the node resolves to that offset plus [pAbs]:
    [(mousePos - pAbs) + pAbs], computed in that order.  Ids are assumed
    unique, and no stored node names the new id as its parent. *)
Theorem onDrop_stores_offset_from_container
    depth t mousePos stamp c c' :
  0 < depth ->
  t <> "" ->
  NoDup (map id (nodes (store c))) ->
  (forall m, In m (nodes (store c)) ->
             parentNode m <> Some (t ++ "-" ++ stamp)%string) ->
  onDrop depth t mousePos stamp c = Normal c' ->
  alerts c' = alerts c ->
  exists newNode hit,
    dropHitTest depth (nodes (store c)) t mousePos
      (dropCandidates (nodes (store c))) = Normal hit /\
    nodes (store c') = nodes (store c) ++ [newNode] /\
    id newNode = (t ++ "-" ++ stamp)%string /\
    match hit with
    | None =>
        parentNode newNode = None /\
        position newNode = mousePos /\
        getAbsolutePosition (S depth) (nodes (store c')) (Some newNode)
        = Normal mousePos
    | Some (P, pAbs) =>
        parentNode newNode = Some (id P) /\
        position newNode = subXY mousePos pAbs /\
        getAbsolutePosition depth (nodes (store c')) (Some P)
        = Normal pAbs /\
        getAbsolutePosition (S depth) (nodes (store c')) (Some newNode)
        = Normal (addXY (subXY mousePos pAbs) pAbs)
    end.
Proof.
  intros Hdepth Ht Hnd Hfresh Hdrop Halerts.
  destruct (dropHitTest depth (nodes (store c)) t mousePos
              (dropCandidates (nodes (store c)))) as [hit |] eqn:Hhit.
  2: { unfold onDrop, dropPlacement in Hdrop.
       rewrite (proj2 (String.eqb_neq _ _) Ht), Hhit in Hdrop.
       discriminate. }
  rewrite (onDrop_unfold _ _ _ _ _ _ Ht Hhit) in Hdrop. cbv zeta in Hdrop.
  destruct (validatePlacement _ _) as [v |]; [| discriminate].
  cbn [bindC] in Hdrop. destruct (valid v); cbn [negb] in Hdrop.
  2: { injection Hdrop as <-. exfalso.
       exact (alert_changes_alerts _ _ Halerts). }
  injection Hdrop as <-. canvas_simpl.
  exists (placeIn (newNodeOf t mousePos stamp) hit mousePos), hit.
  split; [reflexivity |]. split; [reflexivity |].
  split; [destruct hit as [[p a] |]; reflexivity |].
  destruct hit as [[P pAbs] |].
  - apply dropHitTest_found in Hhit as [HinP [HpAbs _]].
    apply In_dropCandidates in HinP.
    assert (HpAbs' :
              getAbsolutePosition depth
                (nodes (store c)
                 ++ [placeIn (newNodeOf t mousePos stamp) (Some (P, pAbs))
                       mousePos]) (Some P) = Normal pAbs).
    { rewrite getAbsolutePosition_app; [exact HpAbs | exact Hfresh |
                                        exact HinP]. }
    split; [reflexivity |]. split; [reflexivity |].
    split; [exact HpAbs' |].
    cbn [getAbsolutePosition placeIn spread newNodeOf parentNode position
         positionAbsolute p_parentNode p_position p_positionAbsolute
         default].
    unfold Datatypes.id.
    rewrite (findById_app_found _ _ _ _ (findById_self _ _ Hnd HinP)).
    cbn [placeIn spread newNodeOf parentNode position positionAbsolute
         p_parentNode p_position p_positionAbsolute default] in HpAbs'.
    unfold Datatypes.id in HpAbs'. rewrite HpAbs'. reflexivity.
  - split; [reflexivity |]. split; [reflexivity |].
    destruct depth as [| d]; [lia |].
    cbn. rewrite addXY_origin. reflexivity.
Qed.

(** An instance dropped into subnet [B] at the point (40, 50). *)
Lemma onDrop_stores_offset_from_container_witness :
  exists c' newNode,
    onDrop 10 "ec2" (mkXY 40 50) "1700000000000"
      (sampleCanvas [vpcA; subnetB]) = Normal c' /\
    nodes (store c') = [vpcA; subnetB; newNode] /\
    parentNode newNode = Some "B" /\
    position newNode = mkXY 30 40 /\
    getAbsolutePosition 11 (nodes (store c')) (Some newNode)
    = Normal (mkXY 40 50).
Proof.
  eexists.
  assert (Hnd : NoDup (map id (nodes (store (sampleCanvas [vpcA; subnetB]))))).
  { simpl. rewrite !NoDup_cons, !not_elem_of_cons, !elem_of_nil, NoDup_nil.
    intuition discriminate. }
  assert (Hfresh : forall m, In m (nodes (store (sampleCanvas [vpcA; subnetB])))
                     -> parentNode m <> Some ("ec2" ++ "-" ++ "1700000000000")%string).
  { simpl. intros m [<- | [<- | []]]; discriminate. }
  destruct (onDrop_stores_offset_from_container 10 "ec2" (mkXY 40 50)
              "1700000000000" (sampleCanvas [vpcA; subnetB]) _
              ltac:(lia) ltac:(discriminate) Hnd Hfresh eq_refl eq_refl)
    as [newNode [hit [Hhit [H1 [_ H3]]]]].
  assert (Hit : Normal hit = Normal (Some (subnetB, mkXY 10 10)))
    by (rewrite <- Hhit; reflexivity).
  injection Hit as ->.
  exists newNode. split; [reflexivity |].
  cbn [nodes store sampleCanvas sampleState] in H1.
  apply app_inj_tail in H1 as [_ <-].
  split; [reflexivity |]. split; [reflexivity |]. split; [reflexivity |].
  exact (proj2 (proj2 (proj2 H3))).
Defined.

Lemma resolves_candidates depth ns :
  resolves depth ns ->
  forall p, In p (dropCandidates ns) ->
    exists a, getAbsolutePosition depth ns (Some p) = Normal a.
Proof. intros Hres p Hp. apply Hres, In_dropCandidates, Hp. Qed.

Lemma dropHitTest_no_pairing depth ns t mousePos candidates :
  (forall p, dropPairing t p = false) ->
  (forall p, In p candidates ->
             exists a, getAbsolutePosition depth ns (Some p) = Normal a) ->
  dropHitTest depth ns t mousePos candidates = Normal None.
Proof.
  intros Hpair. induction candidates as [| p rest IH]; intros Hres;
    [reflexivity |].
  simpl. destruct (Hres p (or_introl eq_refl)) as [a ->]. simpl.
  rewrite Hpair, andb_false_r. apply IH. intros q Hq. apply Hres. right.
  exact Hq.
Qed.

(** X11: a VPC dropped anywhere is kept, and always as a root: the drop loop
    pairs a VPC with no container, so even on top of a subnet or of another
    VPC the new node has no parent and sits at the drop point. *)
Theorem onDrop_vpc_always_root depth mousePos stamp c :
  resolves depth (nodes (store c)) ->
  onDrop depth "vpc" mousePos stamp c
  = Normal (withStore (addNode (newNodeOf "vpc" mousePos stamp) (store c)) c).
Proof.
  intros Hres.
  rewrite (onDrop_unfold depth "vpc" mousePos stamp c None);
    [reflexivity | discriminate |].
  apply dropHitTest_no_pairing; [reflexivity |].
  apply resolves_candidates, Hres.
Qed.

(** A second VPC dropped in the middle of VPC [A]. *)
Lemma onDrop_vpc_always_root_witness :
  exists c' newNode,
    onDrop 10 "vpc" (mkXY 100 100) "1700000000001"
      (sampleCanvas [vpcA; subnetB]) = Normal c' /\
    nodes (store c') = [vpcA; subnetB; newNode] /\
    parentNode newNode = None /\ position newNode = mkXY 100 100.
Proof.
  assert (Hres : resolves 10 (nodes (store (sampleCanvas [vpcA; subnetB])))).
  { intros p [<- | [<- | []]]; eexists; reflexivity. }
  eexists. eexists. split.
  - exact (onDrop_vpc_always_root 10 (mkXY 100 100) "1700000000001"
             (sampleCanvas [vpcA; subnetB]) Hres).
  - repeat split.
Defined.

Lemma validatePlacement_s3 node parent :
  isStr (specificType node) "s3" = true ->
  validatePlacement node parent = Normal okVerdict.
Proof.
  intros Hs3. unfold validatePlacement.
  rewrite (nodeTypeOf_s3 _ Hs3).
  change (lookupRule "service")
    with (OwnRule {| allowedParents := ["subnet"]; mustHaveParent := true;
                     exceptions := Some ["s3"];
                     errorMessage :=
                       "Compute resources must be placed inside a Subnet." |}).
  cbn [exceptions includesVal existsb]. rewrite Hs3. reflexivity.
Qed.

(** X12: an S3 bucket dropped anywhere is kept: with the subnet under the
    drop point as parent when there is one, without parent otherwise. *)
Theorem onDrop_s3_always_kept depth mousePos stamp c :
  resolves depth (nodes (store c)) ->
  exists hit,
    dropHitTest depth (nodes (store c)) "s3" mousePos
      (dropCandidates (nodes (store c))) = Normal hit /\
    onDrop depth "s3" mousePos stamp c
    = Normal (withStore
                (addNode (placeIn (newNodeOf "s3" mousePos stamp) hit mousePos)
                   (store c)) c) /\
    match hit with
    | Some (parent, _) => In parent (nodes (store c)) /\
                          type parent = Some "subnet"
    | None => True
    end.
Proof.
  intros Hres.
  destruct (dropHitTest_total depth (nodes (store c)) "s3" mousePos
              (dropCandidates (nodes (store c)))
              (resolves_candidates _ _ Hres)) as [hit Hhit].
  exists hit. split; [exact Hhit |]. split.
  - rewrite (onDrop_unfold depth "s3" mousePos stamp c hit
               ltac:(discriminate) Hhit).
    cbv zeta. rewrite validatePlacement_s3; [reflexivity |].
    unfold specificType. rewrite placeIn_data. reflexivity.
  - destruct hit as [[p a] |]; [| exact I].
    apply dropHitTest_found in Hhit as [Hin [_ [_ Hpair]]].
    split; [apply In_dropCandidates, Hin |].
    unfold dropPairing in Hpair. simpl in Hpair.
    apply typeIs_true. exact Hpair.
Qed.

Lemma onDrop_s3_always_kept_witness :
  exists c' newNode,
    onDrop 10 "s3" (mkXY 40 50) "1700000000002"
      (sampleCanvas [vpcA; subnetB]) = Normal c' /\
    nodes (store c') = [vpcA; subnetB; newNode] /\
    parentNode newNode = Some "B".
Proof.
  assert (Hres : resolves 10 (nodes (store (sampleCanvas [vpcA; subnetB])))).
  { intros p [<- | [<- | []]]; eexists; reflexivity. }
  destruct (onDrop_s3_always_kept 10 (mkXY 40 50) "1700000000002"
              (sampleCanvas [vpcA; subnetB]) Hres) as [hit [Hhit [Hdrop _]]].
  assert (Hh : Normal hit = Normal (Some (subnetB, mkXY 10 10)))
    by (rewrite <- Hhit; reflexivity).
  injection Hh as ->.
  eexists. eexists. split; [exact Hdrop |]. split; reflexivity.
Defined.

(** The lookup key of the node a drop creates. *)
Lemma nodeTypeOf_dropped t mousePos stamp hit :
  nodeTypeOf (placeIn (newNodeOf t mousePos stamp) hit mousePos)
  = if String.eqb t "vpc" then "vpc"
    else if String.eqb t "subnet" then "subnet"
    else if String.eqb t "eks" then "eks"
    else if String.eqb t "eks-node-group" then "eks-node-group"
    else "service".
Proof.
  unfold nodeTypeOf, specificType. rewrite placeIn_data, placeIn_type.
  cbn [newNodeOf data type]. rewrite defaultData_type. cbn [isStr].
  destruct (String.eqb_spec t "vpc") as [-> | _]; [reflexivity |].
  destruct (String.eqb_spec t "subnet") as [-> | _]; reflexivity.
Qed.

(** X13: a drop of any other type ([vpc] and [s3] apart) is kept exactly
    when a container takes the drop point, and for a node group only when
    that container is an EKS cluster (a node group that lands on a subnet is
    turned down); every other such drop is rejected with a message and adds
    nothing.  Ids are assumed unique and non-empty. *)
Theorem onDrop_kept_iff_container depth t mousePos stamp c :
  t <> "" -> t <> "vpc" -> t <> "s3" ->
  resolves depth (nodes (store c)) ->
  NoDup (map id (nodes (store c))) ->
  (forall m, In m (nodes (store c)) -> id m <> "") ->
  exists hit,
    dropHitTest depth (nodes (store c)) t mousePos
      (dropCandidates (nodes (store c))) = Normal hit /\
    if dropKept t hit
    then onDrop depth t mousePos stamp c
         = Normal (withStore
                     (addNode
                        (placeIn (newNodeOf t mousePos stamp) hit mousePos)
                        (store c)) c)
    else exists v,
           valid v = false /\
           onDrop depth t mousePos stamp c = Normal (alert (dropAlert v) c).
Proof.
  intros Ht Hvpc Hs3 Hres Hnd Hids.
  destruct (dropHitTest_total depth (nodes (store c)) t mousePos
              (dropCandidates (nodes (store c)))
              (resolves_candidates _ _ Hres)) as [hit Hhit].
  exists hit. split; [exact Hhit |].
  rewrite (onDrop_unfold depth t mousePos stamp c hit Ht Hhit). cbv zeta.
  set (newNode := placeIn (newNodeOf t mousePos stamp) hit mousePos).
  assert (Hkey := nodeTypeOf_dropped t mousePos stamp hit).
  fold newNode in Hkey.
  rewrite (proj2 (String.eqb_neq _ _) Hvpc) in Hkey.
  assert (Hnots3 : isStr (specificType newNode) "s3" = false).
  { unfold specificType, newNode. rewrite placeIn_data.
    cbn [newNodeOf data]. rewrite defaultData_type. simpl.
    apply String.eqb_neq. exact Hs3. }
  assert (Hrule : exists r, RULES !! nodeTypeOf newNode = Some r /\
                    allowedParents r =
                      (if String.eqb t "subnet" then ["vpc"]
                       else if String.eqb t "eks" then ["subnet"]
                       else if String.eqb t "eks-node-group" then ["eks"]
                       else ["subnet"])).
  { rewrite Hkey.
    destruct (String.eqb t "subnet"); [eexists; split; reflexivity |].
    destruct (String.eqb t "eks"); [eexists; split; reflexivity |].
    destruct (String.eqb t "eks-node-group"); eexists; split; reflexivity. }
  destruct Hrule as [r [Hr Hallowed]].
  assert (Hnotvpc : String.eqb (nodeTypeOf newNode) "vpc" = false).
  { rewrite Hkey.
    destruct (String.eqb t "subnet"); [reflexivity |].
    destruct (String.eqb t "eks"); [reflexivity |].
    destruct (String.eqb t "eks-node-group"); reflexivity. }
  assert (Htab : forall parent,
             validatePlacement newNode parent =
               Normal match parent with
                      | None => rejected r
                      | Some p =>
                          if includesStr (allowedParents r) (type p)
                          then okVerdict else rejected r
                      end).
  { intros parent.
    rewrite (validatePlacement_by_rule newNode parent r Hr Hnots3),
      (RULES_mustHaveParent _ _ Hr), Hnotvpc.
    destruct parent as [p |]; simpl; [| reflexivity].
    destruct (includesStr (allowedParents r) (type p)); reflexivity. }
  rewrite Htab. clear Htab.
  destruct hit as [[P pAbs] |]; cbn [dropKept].
  - apply dropHitTest_found in Hhit as [HinP [_ [_ Hpair]]].
    apply In_dropCandidates in HinP.
    assert (Hpar : parentNode newNode = Some (id P)) by reflexivity.
    rewrite Hpar. cbn [truthy].
    rewrite (proj2 (String.eqb_neq _ _) (Hids P HinP)). cbn [negb].
    rewrite (findById_self _ _ Hnd HinP), Hallowed.
    unfold dropPairing, isContainerType in Hpair.
    rewrite (proj2 (String.eqb_neq _ _) Hvpc) in Hpair.
    unfold typeIs in *.
    destruct (type P) as [tp |]; simpl in Hpair |- *.
    2: { rewrite !andb_false_r in Hpair. discriminate. }
    destruct (String.eqb t "subnet") eqn:E1.
    { apply String.eqb_eq in E1. subst t. simpl in Hpair.
      rewrite !orb_false_r in Hpair. simpl. rewrite Hpair. reflexivity. }
    destruct (String.eqb t "eks") eqn:E2.
    { apply String.eqb_eq in E2. subst t. simpl in Hpair.
      rewrite !orb_false_r in Hpair. simpl. rewrite Hpair. reflexivity. }
    destruct (String.eqb t "eks-node-group") eqn:E3; simpl in Hpair |- *.
    + rewrite orb_false_r.
      destruct (String.eqb tp "eks") eqn:E4; cbn [rejected negb valid];
        [reflexivity |].
      eexists. split; [| reflexivity]. reflexivity.
    + rewrite Hpair. reflexivity.
  - cbn [placeIn parentNode newNodeOf truthy negb rejected valid bindC].
    eexists. split; [| reflexivity]. reflexivity.
Qed.

(** An instance on the bare canvas is rejected, a node group on a subnet is
    rejected, a node group in a cluster is kept. *)
Lemma onDrop_kept_iff_container_witness :
  (exists v, onDrop 10 "ec2" (mkXY 700 700) "1"
               (sampleCanvas [vpcA; subnetB; clusterP])
             = Normal (alert (dropAlert v)
                         (sampleCanvas [vpcA; subnetB; clusterP]))) /\
  (exists c' n, onDrop 10 "eks-node-group" (mkXY 40 40) "2"
                  (sampleCanvas [vpcA; subnetB; clusterP]) = Normal c' /\
                nodes (store c') = [vpcA; subnetB; clusterP; n] /\
                parentNode n = Some "P").
Proof.
  assert (Hres : resolves 10
                   (nodes (store (sampleCanvas [vpcA; subnetB; clusterP])))).
  { intros p [<- | [<- | [<- | []]]]; eexists; reflexivity. }
  assert (Hnd : NoDup (map id
                   (nodes (store (sampleCanvas [vpcA; subnetB; clusterP]))))).
  { simpl. rewrite !NoDup_cons, !not_elem_of_cons, !elem_of_nil, NoDup_nil.
    intuition discriminate. }
  assert (Hids : forall m,
             In m (nodes (store (sampleCanvas [vpcA; subnetB; clusterP]))) ->
             id m <> "").
  { intros m [<- | [<- | [<- | []]]]; discriminate. }
  split.
  - destruct (onDrop_kept_iff_container 10 "ec2" (mkXY 700 700) "1"
                (sampleCanvas [vpcA; subnetB; clusterP])
                ltac:(discriminate) ltac:(discriminate) ltac:(discriminate)
                Hres Hnd Hids) as [hit [Hhit Hk]].
    assert (Hh : Normal hit = Normal None)
      by (rewrite <- Hhit; reflexivity).
    injection Hh as ->. destruct Hk as [v [_ Hv]]. exists v. exact Hv.
  - destruct (onDrop_kept_iff_container 10 "eks-node-group" (mkXY 40 40) "2"
                (sampleCanvas [vpcA; subnetB; clusterP])
                ltac:(discriminate) ltac:(discriminate) ltac:(discriminate)
                Hres Hnd Hids) as [hit [Hhit Hk]].
    assert (Hh : Normal hit = Normal (Some (clusterP, mkXY 30 30)))
      by (rewrite <- Hhit; reflexivity).
    injection Hh as ->.
    eexists. eexists. split; [exact Hk |]. split; reflexivity.
Defined.

(** ** Cost estimation: what is sent, when, and what changes the figures *)

Lemma onNodeDragStop_store depth node c c' :
  onNodeDragStop depth node c = Normal c' ->
  store c' = store c \/
  exists nodeId payload, store c' = updateNode nodeId payload (store c).
Proof.
  unfold onNodeDragStop, bindC. intros H.
  break_match; simplify_eq; simpl; eauto.
Qed.

Lemma onDrop_store depth t mousePos stamp c c' :
  onDrop depth t mousePos stamp c = Normal c' ->
  store c' = store c \/ exists n, store c' = addNode n (store c).
Proof.
  unfold onDrop, bindC. intros H.
  break_match; simplify_eq; simpl; eauto.
Qed.

(** A handler either leaves the store alone, or changes only the cost
    figures, or installs a new array. *)
Lemma handle_store depth ev c :
  store (handle depth ev c) = store c \/
  (exists total breakdown,
      store (handle depth ev c) = setCosts total breakdown (store c)) \/
  (exists arr es,
      nodes (store (handle depth ev c)) = arr /\
      edges (store (handle depth ev c)) = es /\
      nodes_ref (store (handle depth ev c)) = next_ref (store c) /\
      totalCost (store (handle depth ev c)) = totalCost (store c) /\
      costBreakdown (store (handle depth ev c)) = costBreakdown (store c)).
Proof.
  destruct ev as [n1 | chs | n2 | t mousePos stamp | i pl | i d | | n3 | ms
                  | tot brk |]; simpl; auto.
  - right. right. eauto 10.
  - destruct (onNodeDragStop depth n2 c) as [c' |] eqn:E; simpl; auto.
    apply onNodeDragStop_store in E as [-> | [i [pl ->]]]; auto.
    right. right. eauto 10.
  - destruct (onDrop depth t mousePos stamp c) as [c' |] eqn:E; simpl; auto.
    apply onDrop_store in E as [-> | [n ->]]; auto.
    right. right. eauto 10.
  - right. right. eauto 10.
  - right. right. eauto 10.
  - right. right. eauto 10.
  - right. right. eauto 10.
  - right. left. eauto.
Qed.

Lemma handle_same_ref depth ev c :
  wfState (store c) ->
  nodes_ref (store (handle depth ev c)) = nodes_ref (store c) ->
  nodes (store (handle depth ev c)) = nodes (store c).
Proof.
  intros Hwf Href.
  destruct (handle_store depth ev c)
    as [-> | [[tot [brk ->]] | [arr [es [_ [_ [Hn _]]]]]]]; auto.
  unfold wfState in Hwf. lia.
Qed.

Lemma step_ref_change depth ev a :
  nodes_ref (store (canvas (step depth ev a)))
    <> nodes_ref (store (canvas a)) ->
  step depth ev a
  = runEffect {| canvas := handle depth ev (canvas a); clock := clock a;
                 timer := timer a; requests := requests a |}.
Proof.
  intros Href.
  destruct ev; try (unfold step, rerender;
                    rewrite bool_decide_eq_false_2; [reflexivity |];
                    intros E; apply Href; unfold step, rerender;
                    rewrite bool_decide_eq_true_2 by exact E; exact E).
  exfalso. apply Href. apply step_elapse_keeps_ref.
Qed.

Lemma timerCurrent_step depth ev a :
  wfState (store (canvas a)) -> timerCurrent a ->
  timerCurrent (step depth ev a).
Proof.
  intros Hwf Hcur.
  assert (Hh : forall e,
             timerCurrent (rerender (canvas a) (handle depth e (canvas a)) a)).
  { intros e t. unfold rerender. case_bool_decide as Href; simpl.
    - intros Ht. rewrite (Hcur t Ht). symmetry.
      apply handle_same_ref; assumption.
    - intros Ht. injection Ht as <-. reflexivity. }
  destruct ev; try apply Hh.
  intros t. unfold step.
  destruct (timer a) as [t0 |] eqn:Ht0; [| discriminate].
  case_bool_decide; simpl.
  - unfold timeoutCallback. destruct (captured t0); discriminate.
  - intros Ht. injection Ht as <-. apply Hcur. exact Ht0.
Qed.

(** X14: however the application got where it is, a pending debounce
    callback closes over the node array that is in the store now: no stale
    snapshot is ever priced, and the empty test is about the current
    nodes. *)
Theorem debounce_timer_is_current depth evs :
  timerCurrent (run depth evs mount).
Proof.
  assert (Hinv : forall a,
             wfState (store (canvas a)) -> timerCurrent a ->
             timerCurrent (run depth evs a)).
  { unfold run. induction evs as [| ev evs IH]; intros a Hwf Hcur; simpl.
    - exact Hcur.
    - apply IH; [apply wfState_step, Hwf | apply timerCurrent_step; auto]. }
  apply Hinv.
  - apply wfState_initial.
  - intros t Ht. injection Ht as <-. reflexivity.
Qed.

Lemma step_elapse_quiet depth ms a t :
  timer a = Some t -> clock a + ms < due t ->
  step depth (EvElapse ms) a
  = {| canvas := canvas a; clock := clock a + ms; timer := timer a;
       requests := requests a |}.
Proof.
  intros Ht Hlt. unfold step. rewrite Ht.
  rewrite bool_decide_eq_false_2 by lia. reflexivity.
Qed.

Lemma step_elapse_request depth ms a t :
  timer a = Some t -> due t <= clock a + ms -> captured t <> [] ->
  step depth (EvElapse ms) a
  = {| canvas := canvas a; clock := clock a + ms; timer := None;
       requests := requests a ++ [captured t] |}.
Proof.
  intros Ht Hle Hne. unfold step. rewrite Ht.
  rewrite bool_decide_eq_true_2 by lia. unfold timeoutCallback.
  destruct (captured t); [contradiction | reflexivity].
Qed.

Lemma step_ref_change_fields depth ev a :
  nodes_ref (store (canvas (step depth ev a)))
    <> nodes_ref (store (canvas a)) ->
  clock (step depth ev a) = clock a /\
  requests (step depth ev a) = requests a /\
  timer (step depth ev a)
  = Some {| due := clock a + debounce_ms;
            captured := nodes (store (canvas (step depth ev a))) |}.
Proof.
  intros Href. rewrite (step_ref_change _ _ _ Href). repeat split.
Qed.

(** X15: two changes of the node array less than 500 ms apart lead to one
    request, sent 500 ms after the second change and carrying the nodes as
    the second change left them. *)
Theorem debounce_coalesces_two_changes depth ev1 ev2 gap a :
  nodes_ref (store (canvas (step depth ev1 a)))
    <> nodes_ref (store (canvas a)) ->
  gap < debounce_ms ->
  nodes_ref (store (canvas (run depth [ev1; EvElapse gap; ev2] a)))
    <> nodes_ref (store (canvas (run depth [ev1; EvElapse gap] a))) ->
  nodes (store (canvas (run depth [ev1; EvElapse gap; ev2] a))) <> [] ->
  requests (run depth [ev1; EvElapse gap; ev2] a) = requests a /\
  requests (run depth [ev1; EvElapse gap; ev2; EvElapse debounce_ms] a)
  = requests a
    ++ [nodes (store (canvas (run depth [ev1; EvElapse gap; ev2] a)))] /\
  timer (run depth [ev1; EvElapse gap; ev2; EvElapse debounce_ms] a) = None.
Proof.
  unfold run. cbn [foldl]. intros H1 Hgap H2 Hne.
  destruct (step_ref_change_fields _ _ _ H1) as [Hc1 [Hr1 Ht1]].
  set (s1 := step depth ev1 a) in *.
  assert (Hs2 : step depth (EvElapse gap) s1
                = {| canvas := canvas s1; clock := clock s1 + gap;
                     timer := timer s1; requests := requests s1 |}).
  { eapply step_elapse_quiet; [exact Ht1 |].
    cbn [due]. rewrite Hc1. unfold debounce_ms in *. lia. }
  rewrite Hs2 in *.
  set (s2 := {| canvas := canvas s1; clock := clock s1 + gap;
                timer := timer s1; requests := requests s1 |}) in *.
  destruct (step_ref_change_fields _ _ _ H2) as [Hc3 [Hr3 Ht3]].
  set (s3 := step depth ev2 s2) in *.
  split; [rewrite Hr3; exact Hr1 |].
  rewrite (step_elapse_request depth debounce_ms s3 _ Ht3);
    [| cbn [due]; lia | exact Hne].
  cbn [requests timer captured]. rewrite Hr3. cbn [s2 requests].
  rewrite Hr1. split; reflexivity.
Qed.

(** Subnet [B] and then instance [C] are added 200 ms apart. *)
Lemma debounce_coalesces_two_changes_witness :
  requests (run 10 [EvAddNode subnetB; EvElapse 200; EvAddNode ec2C;
                    EvElapse 500] mount)
  = [[subnetB; ec2C]].
Proof.
  destruct (debounce_coalesces_two_changes 10 (EvAddNode subnetB)
              (EvAddNode ec2C) 200 mount
              ltac:(vm_compute; discriminate)
              ltac:(unfold debounce_ms; lia)
              ltac:(vm_compute; discriminate)
              ltac:(discriminate))
    as [_ [H _]].
  exact H.
Defined.

Lemma handle_cost_any depth ev c :
  (forall total breakdown, ev <> EvCostResponse total breakdown) ->
  totalCost (store (handle depth ev c)) = totalCost (store c) /\
  costBreakdown (store (handle depth ev c)) = costBreakdown (store c).
Proof.
  intros Hnot.
  destruct ev as [n1 | chs | n2 | t mousePos stamp | i pl | i d | | n3 | ms
                  | tot brk |]; simpl; auto.
  - destruct (onNodeDragStop depth n2 c) as [c' |] eqn:E; simpl; auto.
    eapply onNodeDragStop_cost, E.
  - destruct (onDrop depth t mousePos stamp c) as [c' |] eqn:E; simpl; auto.
    eapply onDrop_cost, E.
  - exfalso. eapply Hnot. reflexivity.
Qed.

(** X16: the cost figures change in two ways only: a response of the
    pricing service replaces them, and the timeout callback of an empty
    canvas resets them; no drag, drop, store update, project reset or failed
    request touches them. *)
Theorem cost_figures_change_only_by_response_or_timeout depth ev a :
  costFigures (step depth ev a) = costFigures a \/
  (exists total breakdown,
      ev = EvCostResponse total breakdown /\
      costFigures (step depth ev a) = (total, breakdown)) \/
  (exists ms t,
      ev = EvElapse ms /\ timer a = Some t /\ captured t = [] /\
      due t <= clock a + ms /\
      costFigures (step depth ev a) = (0%Z, ∅)).
Proof.
  assert (Hh : forall e,
             costFigures (rerender (canvas a) (handle depth e (canvas a)) a)
             = (totalCost (store (handle depth e (canvas a))),
                costBreakdown (store (handle depth e (canvas a))))).
  { intros e. unfold rerender, costFigures.
    destruct (bool_decide _); reflexivity. }
  assert (Hkeep : forall e,
             (forall total breakdown, e <> EvCostResponse total breakdown) ->
             costFigures (rerender (canvas a) (handle depth e (canvas a)) a)
             = costFigures a).
  { intros e He. rewrite Hh.
    destruct (handle_cost_any depth e (canvas a) He) as [-> ->].
    reflexivity. }
  destruct ev as [n1 | chs | n2 | t mousePos stamp | i pl | i d | | n3 | ms
                  | tot brk |];
    try (left; apply Hkeep; discriminate).
  - unfold step. destruct (timer a) as [t |] eqn:Ht; [| left; reflexivity].
    case_bool_decide as Hdue; [| left; reflexivity].
    unfold timeoutCallback. destruct (captured t) eqn:Hcap.
    + right. right. exists ms, t. repeat split; auto.
    + left. reflexivity.
  - right. left. exists tot, brk. split; [reflexivity |].
    unfold step. rewrite Hh. reflexivity.
Qed.

(** ** The store: lookups after writes, attribute edits, project load *)

Lemma spread_keeps_id node payload :
  p_id payload = None -> id (spread node payload) = id node.
Proof. intros H. unfold spread. simpl. rewrite H. reflexivity. Qed.

(** X17: after [updateNode] with a payload that does not carry an id, the
    node found under the updated id is the old one with the payload merged
    in, every other lookup by id gives what it gave before, and the ids of
    the collection are the same, in the same order. *)
Theorem updateNode_then_find nodeId payload st k :
  p_id payload = None ->
  findById (Some k) (nodes (updateNode nodeId payload st))
  = (if String.eqb k nodeId
     then (fun n => spread n payload) <$> findById (Some k) (nodes st)
     else findById (Some k) (nodes st)) /\
  map id (nodes (updateNode nodeId payload st)) = map id (nodes st).
Proof.
  intros Hid. unfold updateNode. cbn [nodes setNodes]. split.
  - rewrite find_map_same_id.
    + destruct (findById (Some k) (nodes st)) as [n |] eqn:Hfind;
        [| destruct (String.eqb k nodeId); reflexivity].
      apply findById_In in Hfind as [_ Hk]. simpl. rewrite Hk.
      destruct (String.eqb k nodeId); reflexivity.
    + intros n. destruct (String.eqb (id n) nodeId); [| reflexivity].
      apply spread_keeps_id, Hid.
  - rewrite map_map. apply map_ext. intros n.
    destruct (String.eqb (id n) nodeId); [| reflexivity].
    apply spread_keeps_id, Hid.
Qed.

(** Moving instance [C] of the sample. *)
Lemma updateNode_then_find_witness :
  position <$> findById (Some "C")
                 (nodes (updateNode "C" (reparentPayload (Some "B") (mkXY 7 9))
                           (sampleState [vpcA; subnetB; ec2C])))
    = Some (mkXY 7 9) /\
  findById (Some "B")
    (nodes (updateNode "C" (reparentPayload (Some "B") (mkXY 7 9))
              (sampleState [vpcA; subnetB; ec2C])))
    = Some subnetB.
Proof.
  split.
  - rewrite (proj1 (updateNode_then_find "C"
                      (reparentPayload (Some "B") (mkXY 7 9))
                      (sampleState [vpcA; subnetB; ec2C]) "C" eq_refl)).
    reflexivity.
  - rewrite (proj1 (updateNode_then_find "C"
                      (reparentPayload (Some "B") (mkXY 7 9))
                      (sampleState [vpcA; subnetB; ec2C]) "B" eq_refl)).
    reflexivity.
Defined.

(** X18: [updateNodeData] touches nothing but [data]: the node found under
    the id keeps id, type, geometry, parent and z-index, and each key of
    its [data] holds the new value if [newData] has the key and the old
    value otherwise; applying the same edit twice is the same as once. *)
Theorem updateNodeData_merges_data nodeId newData st n :
  findById (Some nodeId) (nodes st) = Some n ->
  (exists n',
      findById (Some nodeId) (nodes (updateNodeData nodeId newData st))
        = Some n' /\
      id n' = id n /\ type n' = type n /\ position n' = position n /\
      positionAbsolute n' = positionAbsolute n /\
      parentNode n' = parentNode n /\ width n' = width n /\
      height n' = height n /\ style n' = style n /\ zIndex n' = zIndex n /\
      extent n' = extent n /\
      forall key,
        data n' !! key = match newData !! key with
                         | Some v => Some v
                         | None => data n !! key
                         end) /\
  nodes (updateNodeData nodeId newData (updateNodeData nodeId newData st))
  = nodes (updateNodeData nodeId newData st).
Proof.
  intros Hfind. split.
  - exists (spreadData n newData). split.
    + unfold updateNodeData. cbn [nodes setNodes].
      rewrite find_map_same_id.
      * rewrite Hfind. simpl.
        apply findById_In in Hfind as [_ ->].
        rewrite String.eqb_refl. reflexivity.
      * intros m. destruct (String.eqb (id m) nodeId); reflexivity.
    + repeat split. intros key. cbn [spreadData data].
      rewrite lookup_union. destruct (newData !! key), (data n !! key);
        reflexivity.
  - unfold updateNodeData. cbn [nodes setNodes]. rewrite map_map.
    apply map_ext. intros m.
    destruct (String.eqb (id m) nodeId) eqn:E; cbn [spreadData id];
      rewrite E; [| reflexivity].
    unfold spreadData. cbn. f_equal.
    rewrite (assoc_L (∪)), (idemp_L (∪)). reflexivity.
Qed.

(** Renaming instance [C]. *)
Lemma updateNodeData_merges_data_witness :
  exists n',
    findById (Some "C")
      (nodes (updateNodeData "C" {["label" := VStr "web"]}
                (sampleState [vpcA; subnetB; ec2C]))) = Some n' /\
    position n' = mkXY 20 20 /\
    data n' !! "label" = Some (VStr "web") /\
    data n' !! "type" = Some (VStr "ec2").
Proof.
  destruct (proj1 (updateNodeData_merges_data "C" {["label" := VStr "web"]}
                     (sampleState [vpcA; subnetB; ec2C]) ec2C eq_refl))
    as [n' [H1 [_ [_ [H4 [_ [_ [_ [_ [_ [_ [_ H12]]]]]]]]]]]].
  exists n'. split; [exact H1 |]. split; [exact H4 |].
  split; rewrite H12; reflexivity.
Defined.

(** X19: an attribute edit that does not carry the key [type] never changes
    what the placement rules say about the node, with any candidate
    parent. *)
Theorem attribute_edit_keeps_verdict node newData parent :
  newData !! "type" = None ->
  validatePlacement (spreadData node newData) parent
  = validatePlacement node parent.
Proof.
  intros Hnone.
  assert (Hs : specificType (spreadData node newData) = specificType node).
  { unfold specificType. cbn [spreadData data].
    rewrite lookup_union, Hnone. destruct (data node !! "type"); reflexivity. }
  unfold validatePlacement, nodeTypeOf. rewrite Hs. reflexivity.
Qed.

Lemma attribute_edit_keeps_verdict_witness :
  validatePlacement (spreadData ec2C {["instanceType" := VStr "t3.large"]})
    None
  = validatePlacement ec2C None.
Proof.
  exact (attribute_edit_keeps_verdict ec2C
           {["instanceType" := VStr "t3.large"]} None eq_refl).
Defined.

(** X20: [addNode] does not check the id: a lookup by id that found a node
    before still finds that node, so a node added under an id already in
    use is in the collection but is never the one found; a node added under
    a new id is found. *)
Theorem addNode_then_find node st k :
  findById (Some k) (nodes (addNode node st))
  = match findById (Some k) (nodes st) with
    | Some m => Some m
    | None => if String.eqb (id node) k then Some node else None
    end /\
  In node (nodes (addNode node st)) /\
  length (nodes (addNode node st)) = S (length (nodes st)).
Proof.
  unfold addNode. cbn [nodes setNodes]. split; [| split].
  - simpl. induction (nodes st) as [| m ns IH]; simpl; [reflexivity |].
    destruct (String.eqb (id m) k); [reflexivity | exact IH].
  - apply in_or_app. right. left. reflexivity.
  - rewrite length_app. simpl. lia.
Qed.

Lemma foldl_addNode ns :
  forall st,
    nodes (foldl (fun acc node => addNode node acc) st ns) = nodes st ++ ns /\
    edges (foldl (fun acc node => addNode node acc) st ns) = edges st /\
    totalCost (foldl (fun acc node => addNode node acc) st ns)
      = totalCost st /\
    costBreakdown (foldl (fun acc node => addNode node acc) st ns)
      = costBreakdown st /\
    next_ref (foldl (fun acc node => addNode node acc) st ns)
      = next_ref st + length ns.
Proof.
  induction ns as [| n ns IH]; intros st; simpl.
  - rewrite app_nil_r. repeat split. lia.
  - destruct (IH (addNode n st)) as [H1 [H2 [H3 [H4 H5]]]].
    rewrite H1, H2, H3, H4, H5. simpl. rewrite <- app_assoc.
    repeat split. lia.
Qed.

(** X21: loading a project replaces the diagram by the loaded one: the
    nodes in their stored order (none if the project has none), the edges
    (none if it has none); the cost figures of the previous diagram stay
    until the debounce runs; a new node array is installed for the reset and
    for every node.  In particular loading what was saved gives the saved
    nodes and edges back. *)
Theorem loadDiagram_replaces_diagram diagram_data st saved :
  nodes (loadDiagram diagram_data st)
    = default [] (diagram_data ≫= diagram_nodes) /\
  edges (loadDiagram diagram_data st)
    = default [] (diagram_data ≫= diagram_edges) /\
  totalCost (loadDiagram diagram_data st) = totalCost st /\
  costBreakdown (loadDiagram diagram_data st) = costBreakdown st /\
  next_ref (loadDiagram diagram_data st)
    = S (next_ref st)
      + length (default [] (diagram_data ≫= diagram_nodes)) /\
  nodes (loadDiagram (Some (savedDiagram saved)) st) = nodes saved /\
  edges (loadDiagram (Some (savedDiagram saved)) st) = edges saved.
Proof.
  assert (Hmain : forall dd,
    nodes (loadDiagram dd st) = default [] (dd ≫= diagram_nodes) /\
    edges (loadDiagram dd st) = default [] (dd ≫= diagram_edges) /\
    totalCost (loadDiagram dd st) = totalCost st /\
    costBreakdown (loadDiagram dd st) = costBreakdown st /\
    next_ref (loadDiagram dd st)
      = S (next_ref st) + length (default [] (dd ≫= diagram_nodes))).
  { intros dd. unfold loadDiagram.
    destruct (dd ≫= diagram_nodes) as [ns |];
      destruct (dd ≫= diagram_edges) as [es |]; simpl;
      try (destruct (foldl_addNode ns (clearDiagram st))
             as [H1 [H2 [H3 [H4 H5]]]];
           rewrite ?H1, ?H2, ?H3, ?H4, ?H5);
      simpl; repeat split; lia. }
  destruct (Hmain diagram_data) as [H1 [H2 [H3 [H4 H5]]]].
  destruct (Hmain (Some (savedDiagram saved))) as [S1 [S2 _]].
  repeat split; assumption.
Qed.

(** ** Built canvases have no cycle *)

Lemma dragPairing_rank node p :
  dragPairing node p = true -> rank (type p) < rank (type node).
Proof.
  unfold dragPairing. intros H.
  repeat (apply orb_true_iff in H as [H | H]);
    apply andb_true_iff in H as [H1 H2];
    apply typeIs_true in H1; apply typeIs_true in H2;
    rewrite H1, H2; simpl; lia.
Qed.

Lemma dropPairing_rank t p mousePos stamp :
  dropPairing t p = true ->
  rank (type p) < rank (type (newNodeOf t mousePos stamp)).
Proof.
  unfold dropPairing, isContainerType. cbn [newNodeOf type]. intros H.
  unfold isContainerType.
  destruct (String.eqb_spec t "vpc") as [-> | Hvpc].
  { simpl in H. unfold typeIs in H. destruct (type p); discriminate. }
  destruct (String.eqb_spec t "subnet") as [-> | Hsub].
  { simpl in H. rewrite !orb_false_r in H. apply typeIs_true in H.
    rewrite H. simpl. lia. }
  destruct (String.eqb_spec t "eks") as [-> | Heks].
  { simpl in H. rewrite !orb_false_r in H. apply typeIs_true in H.
    rewrite H. simpl. lia. }
  simpl in H.
  repeat (apply orb_true_iff in H as [H | H]);
    try (apply andb_true_iff in H as [_ H]);
    apply typeIs_true in H; rewrite H; simpl; lia.
Qed.

(** Rewriting the nodes of one id without touching id or type, and giving
    them a parent of a higher level (or none), keeps the layering. *)
Lemma Layered_update (f : Node -> Node) ns n newParent :
  Layered ns -> In n ns ->
  (forall m, id (f m) = id m /\ type (f m) = type m /\
             parentNode (f m) = newParent) ->
  (newParent = None \/
   exists p, findById newParent ns = Some p /\
             rank (type p) < rank (type n)) ->
  Layered (map (fun m => if String.eqb (id m) (id n) then f m else m) ns).
Proof.
  intros [Hnd Hlinks] Hn Hf Hnew.
  set (g := fun m => if String.eqb (id m) (id n) then f m else m).
  assert (Hgid : forall m, id (g m) = id m).
  { intros m. unfold g. destruct (String.eqb (id m) (id n)); [| reflexivity].
    apply Hf. }
  assert (Hgtype : forall m, type (g m) = type m).
  { intros m. unfold g. destruct (String.eqb (id m) (id n)); [| reflexivity].
    apply Hf. }
  assert (Hfind : forall key,
             findById key (map g ns) = g <$> findById key ns).
  { intros [k |]; [| reflexivity]. apply find_map_same_id, Hgid. }
  split.
  - rewrite map_map. erewrite map_ext; [exact Hnd |]. exact Hgid.
  - intros m' Hm'. apply in_map_iff in Hm' as [m [<- Hm]].
    assert (Hcase : parentNode (g m) = None \/
              exists p, findById (parentNode (g m)) ns = Some p /\
                        rank (type p) < rank (type m)).
    { unfold g. destruct (String.eqb_spec (id m) (id n)) as [E | E].
      - destruct (Hf m) as [_ [_ ->]].
        assert (m = n).
        { eapply findById_unique; [exact Hnd | | exact Hm | exact E].
          apply findById_self; assumption. }
        subst m. exact Hnew.
      - apply Hlinks, Hm. }
    destruct Hcase as [Hnone | [p [Hp Hr]]]; [left; exact Hnone |].
    right. exists (g p). rewrite Hfind, Hp. split; [reflexivity |].
    rewrite !Hgtype. exact Hr.
Qed.

(** Position changes keep id, type and parent of every node, in order. *)
Lemma applyNodeChanges_movesOnly moves :
  movesOnly moves ->
  forall ns, map linkOf (applyNodeChanges moves ns) = map linkOf ns.
Proof.
  induction 1 as [| ch moves [cid [cpos [cabs ->]]] _ IH]; intros ns;
    [reflexivity |].
  unfold applyNodeChanges in *. simpl. rewrite IH, map_map.
  apply map_ext. intros a. destruct (String.eqb (id a) cid); reflexivity.
Qed.

Lemma findById_same_links key :
  forall ns ns',
    map linkOf ns' = map linkOf ns ->
    match findById key ns with
    | Some p => exists p', findById key ns' = Some p' /\ type p' = type p
    | None => findById key ns' = None
    end.
Proof.
  destruct key as [k |]; [| intros ns ns' _; reflexivity]. simpl.
  induction ns as [| a ns IH]; intros [| b ns'] H; simpl in *;
    try discriminate; [reflexivity |].
  injection H as Hid Ht Hp Hrest. rewrite Hid.
  destruct (String.eqb (id a) k); [eauto | apply IH, Hrest].
Qed.

Lemma Layered_same_links ns ns' :
  map linkOf ns' = map linkOf ns -> Layered ns -> Layered ns'.
Proof.
  intros Hmap [Hnd Hlinks]. split.
  - replace (map id ns') with (map id ns); [exact Hnd |].
    change id with (fun n => fst (fst (linkOf n))).
    rewrite <- !(map_map linkOf (fun l => fst (fst l))), Hmap. reflexivity.
  - intros b Hb.
    assert (Ha : exists a, linkOf a = linkOf b /\ In a ns).
    { apply in_map_iff. rewrite <- Hmap. apply in_map. exact Hb. }
    destruct Ha as [a [Hab Hina]]. injection Hab as Hid Ht Hp.
    destruct (Hlinks a Hina) as [Hnone | [p [Hfind Hr]]].
    + left. congruence.
    + right. pose proof (findById_same_links (parentNode a) ns ns' Hmap) as Hx.
      rewrite Hfind in Hx. destruct Hx as [p' [Hp' Htp]].
      exists p'. rewrite <- Hp, Hp', Htp, <- Ht. auto.
Qed.

Lemma Layered_app ns x :
  Layered ns ->
  (forall n, In n ns -> id n <> id x) ->
  (parentNode x = None \/
   exists p, In p ns /\ parentNode x = Some (id p) /\
             rank (type p) < rank (type x)) ->
  Layered (ns ++ [x]).
Proof.
  intros [Hnd Hlinks] Hfresh Hx. split.
  - rewrite map_app. simpl. apply NoDup_app. split; [exact Hnd |].
    split; [| apply NoDup_singleton].
    intros i Hi Hi'. apply list_elem_of_singleton in Hi'. subst i.
    apply list_elem_of_In, in_map_iff in Hi as [n [Hid Hn]].
    exact (Hfresh n Hn Hid).
  - intros n Hn. apply in_app_or in Hn as [Hn | [<- | []]].
    + destruct (Hlinks n Hn) as [Hnone | [p [Hp Hr]]]; [left; exact Hnone |].
      right. exists p. split; [apply findById_app_found, Hp | exact Hr].
    + destruct Hx as [Hnone | [p [Hp [Hpar Hr]]]]; [left; exact Hnone |].
      right. exists p. rewrite Hpar. split; [| exact Hr].
      apply findById_app_found, findById_self; assumption.
Qed.

Lemma In_dragCandidates p ns node : In p (dragCandidates ns node) -> In p ns.
Proof.
  intros H. apply In_sortByZ in H. apply List.filter_In in H. tauto.
Qed.

(** The four ways in which [onNodeDragStop] leaves the node collection. *)
Lemma onNodeDragStop_nodes depth node c c' :
  onNodeDragStop depth node c = Normal c' ->
  nodes (store c') = nodes (store c) \/
  (exists snap,
      dragRef c = Some snap /\
      nodes (store c')
      = map (fun m => if String.eqb (id m) (id node)
                      then spread m (revertPayload snap) else m)
          (nodes (store c))) \/
  (exists P pos,
      In P (nodes (store c)) /\ dragPairing node P = true /\
      nodes (store c')
      = map (fun m => if String.eqb (id m) (id node)
                      then spread m (reparentPayload (Some (id P)) pos)
                      else m)
          (nodes (store c))) \/
  (exists pos,
      nodes (store c')
      = map (fun m => if String.eqb (id m) (id node)
                      then spread m (reparentPayload None pos) else m)
          (nodes (store c))).
Proof.
  unfold onNodeDragStop. intros H.
  destruct (typeIs node "vpc"); [injection H as <-; auto |].
  destruct (getAbsolutePosition depth (nodes (store c)) (Some node))
    as [a |]; [| discriminate]. cbn [bindC] in H.
  destruct (dragHitTest depth (nodes (store c)) node (nodeCenterOf node a)
              (dragCandidates (nodes (store c)) node)) as [np |] eqn:Hhit;
    [| discriminate]. cbn [bindC] in H.
  destruct (validatePlacement node np) as [v |]; [| discriminate].
  cbn [bindC] in H. destruct (valid v); cbn [negb] in H.
  - destruct np as [P |].
    + destruct (negb (bool_decide (parentNode node = Some (id P)))).
      * destruct (getAbsolutePosition depth (nodes (store c)) (Some P))
          as [pAbs |]; [| discriminate]. cbn [bindC] in H.
        injection H as <-. right. right. left.
        apply dragHitTest_first in Hhit
          as [before [after [pa [Hsplit [_ [_ [Hpair _]]]]]]].
        exists P, (subXY a pAbs). split; [| split; [exact Hpair |]].
        -- apply (In_dragCandidates P _ node). rewrite Hsplit.
           apply in_or_app. right. left. reflexivity.
        -- reflexivity.
      * injection H as <-. auto.
    + destruct (truthy (parentNode node)); injection H as <-; auto.
      right. right. right. exists a. reflexivity.
  - cbn [alert dragRef] in H. destruct (dragRef c) as [snap |] eqn:Hr.
    + destruct (String.eqb (drag_id snap) (id node));
        injection H as <-; auto.
      right. left. exists snap. split; reflexivity.
    + injection H as <-. auto.
Qed.

Lemma Layered_dragGesture depth nodeId moves c c' :
  Layered (nodes (store c)) -> movesOnly moves ->
  dragGesture depth nodeId moves c = Normal c' ->
  Layered (nodes (store c')).
Proof.
  intros Hlay Hmoves. unfold dragGesture.
  destruct (findById (Some nodeId) (nodes (store c))) as [n0 |] eqn:Hn0;
    [| intros H; injection H as <-; exact Hlay].
  canvas_simpl.
  assert (Hlay1 : Layered (applyNodeChanges moves (nodes (store c)))).
  { eapply Layered_same_links; [| exact Hlay].
    apply applyNodeChanges_movesOnly, Hmoves. }
  destruct (findById (Some nodeId) (applyNodeChanges moves (nodes (store c))))
    as [n1 |] eqn:Hn1; [| intros H; injection H as <-; exact Hlay1].
  intros Hstop.
  destruct (findById_In _ _ _ Hn1) as [Hin1 Hid1].
  destruct (findById_applyNodeChanges _ _ _ _ Hn1)
    as [n0' [Hn0' [_ [_ Hpar]]]].
  rewrite Hn0 in Hn0'. injection Hn0' as <-.
  apply onNodeDragStop_nodes in Hstop
    as [Hsame | [[snap [Hsnap Hrev]] | [[P [pos [HinP [Hpair Hre]]]]
                                        | [pos Horph]]]];
    canvas_simpl.
  - rewrite Hsame. exact Hlay1.
  - injection Hsnap as <-. rewrite Hrev.
    apply (Layered_update _ _ n1 (parentNode n0)); auto.
    rewrite <- Hpar. apply (proj2 Hlay1), Hin1.
  - rewrite Hre.
    apply (Layered_update _ _ n1 (Some (id P))); auto.
    right. exists P. split; [| apply dragPairing_rank, Hpair].
    apply findById_self; [exact (proj1 Hlay1) | exact HinP].
  - rewrite Horph. apply (Layered_update _ _ n1 None); auto.
Qed.

Lemma Layered_onDrop depth t mousePos stamp c c' :
  Layered (nodes (store c)) ->
  (forall n, In n (nodes (store c)) -> id n <> (t ++ "-" ++ stamp)%string) ->
  onDrop depth t mousePos stamp c = Normal c' ->
  Layered (nodes (store c')).
Proof.
  intros Hlay Hfresh Hdrop.
  destruct (String.eqb_spec t "") as [-> | Ht].
  { injection Hdrop as <-. exact Hlay. }
  destruct (dropHitTest depth (nodes (store c)) t mousePos
              (dropCandidates (nodes (store c)))) as [hit |] eqn:Hhit.
  2: { unfold onDrop, dropPlacement in Hdrop.
       rewrite (proj2 (String.eqb_neq _ _) Ht), Hhit in Hdrop.
       discriminate. }
  rewrite (onDrop_unfold _ _ _ _ _ _ Ht Hhit) in Hdrop. cbv zeta in Hdrop.
  destruct (validatePlacement _ _) as [v |]; [| discriminate].
  cbn [bindC] in Hdrop. destruct (valid v); cbn [negb] in Hdrop;
    injection Hdrop as <-; [| exact Hlay].
  canvas_simpl. apply Layered_app; [exact Hlay | |].
  - intros n Hn. destruct hit as [[P a] |]; apply Hfresh, Hn.
  - destruct hit as [[P a] |]; [| left; reflexivity].
    right. exists P. apply dropHitTest_found in Hhit as [HinP [_ [_ Hpair]]].
    split; [apply In_dropCandidates, HinP |]. split; [reflexivity |].
    apply (dropPairing_rank t P mousePos stamp), Hpair.
Qed.

Lemma Built_Layered depth c : Built depth c -> Layered (nodes (store c)).
Proof.
  induction 1 as [c Hempty | c c' t mousePos stamp _ IH Hfresh Hdrop
                  | c c' nodeId moves _ IH Hmoves Hdrag].
  - rewrite Hempty. split; [constructor | intros n []].
  - eapply Layered_onDrop; eauto.
  - eapply Layered_dragGesture; eauto.
Qed.

Lemma rank_le_3 t : rank t <= 3.
Proof.
  unfold rank. destruct t as [s |]; [| lia].
  repeat match goal with
         | |- context [if ?b then _ else _] => destruct b
         end; lia.
Qed.

Lemma Layered_Resolvable ns :
  Layered ns ->
  forall k n, In n ns -> rank (type n) <= k ->
    exists h, h <= S k /\ Resolvable ns n h.
Proof.
  intros [_ Hlinks]. induction k as [| k IH]; intros n Hn Hk.
  - destruct (Hlinks n Hn) as [Hnone | [p [_ Hr]]]; [| lia].
    exists 1. split; [lia | apply resolvable_root, Hnone].
  - destruct (Hlinks n Hn) as [Hnone | [p [Hp Hr]]].
    + exists 1. split; [lia | apply resolvable_root, Hnone].
    + assert (Hinp : In p ns).
      { destruct (parentNode n) as [key |]; [| discriminate].
        apply findById_In in Hp. tauto. }
      destruct (IH p Hinp ltac:(lia)) as [h [Hh Hres]].
      exists (S h). split; [lia |].
      eapply resolvable_child; eauto.
Qed.

(** X22: in a canvas built from an empty one by palette drops (each under
    an id not yet in use) and by drags, ids are unique and every node has a
    resolvable parent chain of at most four nodes: the handlers never
    create a cycle or a dangling parent, so the resolver returns on every
    stored node with five stack frames. *)
Theorem built_canvas_has_no_cycle depth c :
  Built depth c ->
  NoDup (map id (nodes (store c))) /\
  (forall n, In n (nodes (store c)) ->
     exists h, h <= 4 /\ Resolvable (nodes (store c)) n h) /\
  resolves 5 (nodes (store c)).
Proof.
  intros HB. pose proof (Built_Layered _ _ HB) as Hlay.
  assert (Hres : forall n, In n (nodes (store c)) ->
            exists h, h <= 4 /\ Resolvable (nodes (store c)) n h).
  { intros n Hn. apply (Layered_Resolvable _ Hlay 3 n Hn), rank_le_3. }
  split; [exact (proj1 Hlay) |]. split; [exact Hres |].
  intros n Hn. destruct (Hres n Hn) as [h [Hh Hr]].
  apply (getAbsolutePosition_resolvable _ _ _ Hr). lia.
Qed.

Lemma fresh_by_check (s : string) (ns : list Node) :
  forallb (fun n => negb (String.eqb (id n) s)) ns = true ->
  forall n, In n ns -> id n <> s.
Proof.
  intros H n Hn. rewrite forallb_forall in H. specialize (H n Hn).
  apply negb_true_iff, String.eqb_neq in H. exact H.
Qed.

(** A VPC, a subnet in it and an instance in the subnet, dropped in turn;
    then the instance is dragged a few pixels. *)
Lemma built_canvas_has_no_cycle_witness :
  Built 10 grown4 /\
  map id (nodes (store grown4)) = ["vpc-1"; "subnet-2"; "ec2-3"] /\
  map parentNode (nodes (store grown4))
    = [None; Some "vpc-1"; Some "subnet-2"] /\
  resolves 5 (nodes (store grown4)).
Proof.
  assert (HB : Built 10 grown4).
  { apply (built_drag 10 grown3 grown4 "ec2-3"
             [PositionChange "ec2-3" (Some (mkXY 25 25)) None]).
    - apply (built_drop 10 grown2 grown3 "ec2" (mkXY 30 30) "3").
      + apply (built_drop 10 grown1 grown2 "subnet" (mkXY 10 10) "2").
        * apply (built_drop 10 (sampleCanvas []) grown1 "vpc" (mkXY 0 0) "1").
          -- apply built_empty. reflexivity.
          -- intros n [].
          -- vm_compute. reflexivity.
        * apply fresh_by_check. vm_compute. reflexivity.
        * vm_compute. reflexivity.
      + apply fresh_by_check. vm_compute. reflexivity.
      + vm_compute. reflexivity.
    - repeat constructor. eauto.
    - vm_compute. reflexivity. }
  split; [exact HB |].
  split; [vm_compute; reflexivity |]. split; [vm_compute; reflexivity |].
  exact (proj2 (proj2 (built_canvas_has_no_cycle 10 grown4 HB))).
Defined.

(** ** The theme store *)

Lemma themeConsistent_create item dark cls :
  themeConsistent (createThemeStore item dark cls).
Proof.
  unfold themeConsistent, createThemeStore, getStoredTheme, resolveTheme,
    getSystemTheme, applyTheme; cbn.
  repeat split; destruct (String.eqb _ "dark"); reflexivity.
Qed.

Lemma themeConsistent_setTheme t s : themeConsistent (setTheme t s).
Proof.
  unfold themeConsistent, setTheme, setThemeTo, getStoredTheme, resolveTheme,
    getSystemTheme, applyTheme, setItem; cbn.
  destruct t, (prefersDark s); cbn; repeat split; reflexivity.
Qed.

Lemma themeConsistent_step s ev :
  themeConsistent s -> themeConsistent (themeStep s ev).
Proof.
  intros (Hc & Hr & Hs). destruct ev as [t | | | m]; cbn [themeStep].
  - apply themeConsistent_setTheme.
  - unfold themeConsistent, toggleTheme, getStoredTheme, resolveTheme,
      getSystemTheme, applyTheme, setItem; cbn.
    destruct (String.eqb (resolvedTheme s) "dark"); cbn;
      repeat split; reflexivity.
  - unfold cycleTheme.
    destruct (String.eqb (theme s) "light");
      [| destruct (String.eqb (theme s) "dark")];
      apply themeConsistent_setTheme.
  - unfold themeConsistent, systemThemeChanged, getStoredTheme, resolveTheme,
      getSystemTheme, applyTheme in *; cbn in *.
    destruct (String.eqb (theme s) "system") eqn:E; cbn.
    + rewrite E. destruct m; cbn; repeat split; auto.
    + rewrite E in *. repeat split; auto.
Qed.

Lemma themeConsistent_run evs s :
  themeConsistent s -> themeConsistent (themeRun evs s).
Proof.
  unfold themeRun. revert s.
  induction evs as [| ev evs IH]; intros s H; cbn; [exact H |].
  apply IH, themeConsistent_step, H.
Qed.

(** X23: Whatever [localStorage], the media query and the class list hold
    when the store is created, and whatever sequence of [setTheme],
    [toggleTheme], [cycleTheme] calls and media-query changes follows, the
    document carries the [dark] class exactly when [resolvedTheme] is
    ["dark"], [resolvedTheme] is [resolveTheme(theme)] under the current
    system preference, and [getStoredTheme()] gives [theme] back; so a store
    created afresh from the same environment (a page reload) is in the same
    state. *)
Theorem theme_store_survives_reload
    (item : option string) (dark cls : bool) (evs : list ThemeEvent) :
  let s := themeRun evs (createThemeStore item dark cls) in
  darkClass s = String.eqb (resolvedTheme s) "dark" /\
  resolvedTheme s = resolveTheme (theme s) s /\
  getStoredTheme s = theme s /\
  createThemeStore (storedTheme s) (prefersDark s) (darkClass s) = s.
Proof.
  intros s.
  destruct (themeConsistent_run evs _ (themeConsistent_create item dark cls))
    as (Hc & Hr & Hs).
  fold s in Hc, Hr, Hs. repeat split; auto.
  unfold createThemeStore, applyTheme; cbn.
  unfold getStoredTheme, resolveTheme, getSystemTheme in *; cbn in *.
  rewrite Hs, <- Hr.
  clearbody s.
  destruct (String.eqb (resolvedTheme s) "dark");
    destruct s; cbn in *; congruence.
Qed.

Lemma last_cons_default {A} (l : list A) (a d : A) :
  List.last (a :: l) d = List.last l a.
Proof.
  revert a d. induction l as [| b l IH]; intros a d; [reflexivity |].
  change (List.last (a :: b :: l) d) with (List.last (b :: l) d).
  rewrite (IH b d), (IH b a). reflexivity.
Qed.

Lemma systemThemeChanged_pinned m s :
  String.eqb (theme s) "system" = false ->
  systemThemeChanged m s
  = mkThemeStore (storedTheme s) m (darkClass s) (theme s) (resolvedTheme s).
Proof. intros H. unfold systemThemeChanged; cbn. rewrite H. reflexivity. Qed.

(** X24: [toggleTheme] pins the theme: it stores and sets ["light"] when
    [resolvedTheme] was ["dark"] and ["dark"] in every other case, also when
    the theme was ["system"]; after it no media-query change alters the
    theme, the resolved theme, the stored item or the [dark] class. *)
Theorem toggleTheme_pins_theme (s : ThemeStore) (changes : list bool) :
  let flipped :=
    if String.eqb (resolvedTheme s) "dark" then "light" else "dark" in
  let s' := themeRun (map EvSystemTheme changes) (toggleTheme s) in
  theme s' = flipped /\
  resolvedTheme s' = flipped /\
  storedTheme s' = Some flipped /\
  darkClass s' = negb (String.eqb (resolvedTheme s) "dark") /\
  prefersDark s' = List.last changes (prefersDark s).
Proof.
  cbv zeta.
  set (t := toggleTheme s).
  assert (Ht : String.eqb (theme t) "system" = false).
  { unfold t, toggleTheme; cbn.
    destruct (String.eqb (resolvedTheme s) "dark"); reflexivity. }
  assert (Hgen : forall cs u,
            String.eqb (theme u) "system" = false ->
            let u' := themeRun (map EvSystemTheme cs) u in
            theme u' = theme u /\ resolvedTheme u' = resolvedTheme u /\
            storedTheme u' = storedTheme u /\ darkClass u' = darkClass u /\
            prefersDark u' = List.last cs (prefersDark u)).
  { induction cs as [| c cs IH]; intros u Hu; cbn.
    - repeat split.
    - unfold themeRun in IH.
      rewrite (systemThemeChanged_pinned c u Hu).
      specialize (IH (mkThemeStore (storedTheme u) c (darkClass u)
                        (theme u) (resolvedTheme u)) Hu).
      cbn in IH. destruct IH as (H1 & H2 & H3 & H4 & H5).
      repeat split; auto. rewrite H5. symmetry. apply last_cons_default. }
  destruct (Hgen changes t Ht) as (H1 & H2 & H3 & H4 & H5).
  rewrite H1, H2, H3, H4, H5. unfold t, toggleTheme, applyTheme, setItem; cbn.
  destruct (String.eqb (resolvedTheme s) "dark"); repeat split; reflexivity.
Qed.

Lemma setTheme_overwrites a b s : setTheme a (setTheme b s) = setTheme a s.
Proof. destruct a; reflexivity. Qed.

Lemma cycleTheme_setTheme t s :
  cycleTheme (setTheme t s)
  = setTheme match t with Light => Dark | Dark => System | System => Light end
      s.
Proof.
  rewrite <- (setTheme_overwrites _ t s). destruct t; reflexivity.
Qed.

(** X25: [cycleTheme] runs light, dark, system, light; a theme that is none
    of the three (an item of [localStorage] cast to [Theme]) goes to light.
    From any state at all the first call reaches the cycle, and three more
    calls come back to exactly that state: theme, resolved theme, stored
    item and [dark] class. *)
Theorem cycleTheme_period_three (s : ThemeStore) :
  let s1 := cycleTheme s in
  theme s1 = (if String.eqb (theme s) "light" then "dark"
              else if String.eqb (theme s) "dark" then "system"
              else "light") /\
  storedTheme s1 = Some (theme s1) /\
  cycleTheme (cycleTheme (cycleTheme s1)) = s1.
Proof.
  cbv zeta.
  assert (H : exists t, cycleTheme s = setTheme t s /\
                        themeName t
                        = if String.eqb (theme s) "light" then "dark"
                          else if String.eqb (theme s) "dark" then "system"
                          else "light").
  { unfold cycleTheme.
    destruct (String.eqb (theme s) "light");
      [| destruct (String.eqb (theme s) "dark")];
      eexists; split; reflexivity. }
  destruct H as (t & -> & Ht). rewrite <- Ht. split; [| split].
  - destruct t; reflexivity.
  - destruct t; reflexivity.
  - rewrite !cycleTheme_setTheme. destruct t; reflexivity.
Qed.
